(** * Dockta: the Dockerfile generator and its R adapter

    A shallow embedding of [Generator.generate] (the build-file composer) and
    of [RGenerator] (the R ecosystem adapter), with the properties of the
    specification stated over it.

    Strings are [string] (sequences of 8-bit code units), the project folder
    is a finite map from relative paths to file contents, and the methods of
    the [Generator] class hierarchy are computations in a state monad over
    the world the generator runs in (the folder, the glob results, the clock). *)

From Stdlib Require Import ZArith Ascii String List Lia Bool.
From stdpp Require Import base option list strings gmap.

Local Open Scope string_scope.
Local Open Scope list_scope.

(** ** JavaScript string primitives used by the source *)

Module Js.

(** The one-character strings that cannot be written inside a literal. *)
Definition nl : string := String "010"%char EmptyString.
Definition dq : string := String "034"%char EmptyString.

(** [Array.prototype.join]. *)
Fixpoint join (sep : string) (xs : list string) : string :=
  match xs with
  | [] => EmptyString
  | [x] => x
  | x :: rest => x +:+ sep +:+ join sep rest
  end.

(** [String.prototype.replace] with a pattern that matches exactly one code
    unit and carries no global flag: only the first match is replaced. *)
Fixpoint replace_first (p : ascii -> bool) (rep : string) (s : string) : string :=
  match s with
  | EmptyString => EmptyString
  | String c rest =>
      if p c then rep +:+ rest else String c (replace_first p rep rest)
  end.

(** Truthiness of a [string | undefined] value: [undefined] and the empty
    string are falsy. *)
Definition truthy (o : option string) : bool :=
  match o with
  | Some (String _ _) => true
  | _ => false
  end.

(** [o || d] on a [string | undefined] value. *)
Definition or_else (o : option string) (d : string) : string :=
  match o with
  | Some (String c s) => String c s
  | _ => d
  end.

(** Interpolation of a [string | undefined] value in a template literal. *)
Definition interp (o : option string) : string :=
  match o with
  | Some s => s
  | None => "undefined"
  end.

(** What reading a property of an object literal whose own properties are
    strings can give: nothing, one of the strings, or a member inherited from
    [Object.prototype] (a native function, or the prototype object itself,
    which is what the accessor [__proto__] answers). *)
Inductive value : Type :=
  | Undefined
  | Text (s : string)
  | Native (name : string)
  | PrototypeObject.

(** The members of [Object.prototype] other than [constructor] and
    [__proto__]: each is a native function of that name. *)
Definition prototype_functions : list string :=
  ["__defineGetter__"; "__defineSetter__"; "hasOwnProperty";
   "__lookupGetter__"; "__lookupSetter__"; "isPrototypeOf";
   "propertyIsEnumerable"; "toString"; "valueOf"; "toLocaleString"].

(** Reading [key] on [Object.prototype]. *)
Definition Object_prototype (key : string) : value :=
  if String.eqb key "constructor" then Native "Object"
  else if String.eqb key "__proto__" then PrototypeObject
  else if existsb (String.eqb key) prototype_functions then Native key
  else Undefined.

(** [o[key]] on an object literal [o] with the own properties [own]: an own
    property first, then the prototype chain. *)
Definition get (own : gmap string string) (key : string) : value :=
  match own !! key with
  | Some s => Text s
  | None => Object_prototype key
  end.

(** Interpolation of such a value in a template literal; a native function
    is printed as Node prints it. *)
Definition show (v : value) : string :=
  match v with
  | Undefined => "undefined"
  | Text s => s
  | Native name => "function " +:+ name +:+ "() { [native code] }"
  | PrototypeObject => "[object Object]"
  end.

(** [String.prototype.split] on a one-character separator. *)
Fixpoint split_aux (sep : ascii) (cur : string) (s : string) : list string :=
  match s with
  | EmptyString => [String.rev cur]
  | String c rest =>
      if Ascii.eqb c sep then String.rev cur :: split_aux sep EmptyString rest
      else split_aux sep (String c cur) rest
  end.

Definition split (sep : ascii) (s : string) : list string :=
  split_aux sep EmptyString s.

(** [String.prototype.substring(0, n)]. *)
Definition substring0 (n : nat) (s : string) : string := String.substring 0 n s.

(** Concatenation of the pieces of a template literal. *)
Definition cat (pieces : list string) : string :=
  fold_right String.append EmptyString pieces.

Definition bs : string := String "092"%char EmptyString.

(** [n] in decimal on [width] digits, padded with zeros on the left. *)
Fixpoint digits (width : nat) (n : Z) (acc : string) : string :=
  match width with
  | O => acc
  | S k =>
      digits k (n / 10)%Z
        (String (ascii_of_nat (48 + Z.to_nat (n mod 10)%Z)) acc)
  end.

Local Open Scope Z_scope.

(** The proleptic Gregorian date of a day number counted from 1970-01-01. *)
Definition civil_from_days (days : Z) : Z * Z * Z :=
  let z := days + 719468 in
  let era := z / 146097 in
  let doe := z - era * 146097 in
  let yoe := (doe - doe / 1460 + doe / 36524 - doe / 146096) / 365 in
  let doy := doe - (365 * yoe + yoe / 4 - yoe / 100) in
  let mp := (5 * doy + 2) / 153 in
  let d := doy - (153 * mp + 2) / 5 + 1 in
  let m := if mp <? 10 then mp + 3 else mp - 9 in
  let y := yoe + era * 400 + (if m <=? 2 then 1 else 0) in
  (y, m, d).

(** [new Date(ms).toISOString()], [ms] being milliseconds since the epoch. *)
Definition toISOString (ms : Z) : string :=
  let days := ms / 86400000 in
  let rem := ms mod 86400000 in
  let '(y, m, d) := civil_from_days days in
  let year :=
    if (0 <=? y) && (y <=? 9999) then digits 4 y EmptyString
    else (if y <? 0 then "-" else "+") +:+ digits 6 (Z.abs y) EmptyString in
  cat [year; "-"; digits 2 m EmptyString; "-"; digits 2 d EmptyString; "T";
       digits 2 (rem / 3600000) EmptyString; ":";
       digits 2 (rem / 60000 mod 60) EmptyString; ":";
       digits 2 (rem / 1000 mod 60) EmptyString; ".";
       digits 3 (rem mod 1000) EmptyString; "Z"].

Local Close Scope Z_scope.

(** No double quote in a string. *)
Fixpoint quote_free (s : string) : Prop :=
  match s with
  | EmptyString => True
  | String c rest => c <> "034"%char /\ quote_free rest
  end.

(** [s] occurs in [t] as a contiguous run of characters. *)
Definition occurs (s t : string) : Prop :=
  exists pre post, t = pre +:+ s +:+ post.

End Js.

(** ** The data model: [SoftwareEnvironment] and [SoftwarePackage] *)

(** A node of the dependency forest. Every attribute is optional in the
    schema, so each is an [option]. *)
#[warnings="-register-all"]
Inductive SoftwarePackage : Type :=
  mkPackage {
    name : option string;
    runtimePlatform : option string;
    softwareRequirements : option (list SoftwarePackage)
  }.

Record SoftwareEnvironment : Type :=
  mkEnvironment {
    env_name : option string;
    datePublished : option string;
    env_softwareRequirements : option (list SoftwarePackage)
  }.

(** [pkg.runtimePlatform === tag]. *)
Definition platform_is (tag : string) (pkg : SoftwarePackage) : bool :=
  match runtimePlatform pkg with
  | Some t => String.eqb t tag
  | None => false
  end.

(** The children of a node, none when the attribute is absent. *)
Definition children (pkg : SoftwarePackage) : list SoftwarePackage :=
  default [] (softwareRequirements pkg).

(** ** [RGenerator.aptPackages]: the dependency walk *)

Module Walk.

(** The inner function [find] of [aptPackages]. The array [debpkgs] that the
    source mutates by [push] is threaded through as an accumulator. *)
Fixpoint find (pkg : SoftwarePackage) (debpkgs : list string) : list string :=
  match pkg with
  | mkPackage _ rp reqs =>
      if negb (match rp with Some t => String.eqb t "R" | None => false end)
      then debpkgs
      else
        match reqs with
        | None => debpkgs
        | Some subs =>
            (fix loop (subs : list SoftwarePackage) (debpkgs : list string) :=
               match subs with
               | [] => debpkgs
               | subpkg :: rest =>
                   if platform_is "deb" subpkg
                   then loop rest (debpkgs ++ [Js.or_else (name subpkg) EmptyString])
                   else loop rest (find subpkg debpkgs)
               end) subs debpkgs
        end
  end.

(** One turn of the loop of [find] over the children of an R-tagged node. *)
Definition visit (debpkgs : list string) (subpkg : SoftwarePackage) : list string :=
  if platform_is "deb" subpkg
  then debpkgs ++ [Js.or_else (name subpkg) EmptyString]
  else find subpkg debpkgs.

(** The loop [for (let pkg of this.environ.softwareRequirements || []) find(pkg)]. *)
Definition find_all (pkgs : list SoftwarePackage) (debpkgs : list string) : list string :=
  fold_left (fun acc pkg => find pkg acc) pkgs debpkgs.

Definition aptPackages (environ : SoftwareEnvironment) : list string :=
  find_all (default [] (env_softwareRequirements environ)) [] ++ ["r-base"].

End Walk.

(** ** The world a generator runs in *)

(** The project folder, what [glob] answers for a pattern, the successive
    readings of the system clock (milliseconds since the epoch) with the
    number of readings taken so far, and the [version] field of the package
    manifest, which the module reads into [VERSION] when it is loaded. *)
Record World : Type :=
  mkWorld {
    folder : gmap string string;
    globbed : string -> list string;
    clock : nat -> Z;
    reads : nat;
    VERSION : string
  }.

(** Computations that read and change the world. *)
Definition M (A : Type) : Type := World -> A * World.

Definition ret {A} (a : A) : M A := fun w => (a, w).

Definition bind {A B} (c : M A) (k : A -> M B) : M B :=
  fun w => let '(a, w') := c w in k a w'.

Notation "'let*' x ':=' c 'in' k" := (bind c (fun x => k))
  (at level 10, x name, c at level 100, k at level 200).

(** The result of a computation, and the world it leaves. *)
Definition result {A} (c : M A) (w : World) : A := fst (c w).
Definition after {A} (c : M A) (w : World) : World := snd (c w).

(** [Date.now()], also the reading behind [new Date()]. *)
Definition now : M Z :=
  fun w => (clock w (reads w),
            mkWorld (folder w) (globbed w) (clock w) (S (reads w)) (VERSION w)).

Definition version : M string := fun w => (VERSION w, w).

(** ** The filesystem collaborator ([Doer]) *)

Module Doer.

(** Modelled from the spec: [Doer.exists], absent from the sources; the spec
    gives [exists(relativePath) -> boolean], scoped to the project folder. *)
Definition exists_ (path : string) : M bool :=
  fun w => (bool_decide (is_Some (folder w !! path)), w).

(** Modelled from the spec: [Doer.glob], absent from the sources; the spec
    gives [glob(pattern) -> ordered sequence of relativePath]. *)
Definition glob (pattern : string) : M (list string) :=
  fun w => (globbed w pattern, w).

(** Modelled from the spec: [Doer.write], absent from the sources; the spec
    gives [write(path, content)], a whole-file write where the last write
    wins. The two files the generators write start with a dot and do not end
    in [.R], so the answers of [glob] are left as they are. *)
Definition write (path content : string) : M unit :=
  fun w => (tt, mkWorld (<[path := content]> (folder w)) (globbed w)
                        (clock w) (reads w) (VERSION w)).

(** Modelled from the spec: [Doer.filterPackages], absent from the sources;
    the spec speaks of the environment's R packages: the top-level
    requirements whose [runtimePlatform] is the given tag. *)
Definition filterPackages (environ : SoftwareEnvironment) (tag : string)
  : list SoftwarePackage :=
  filter (fun pkg => platform_is tag pkg = true)
         (default [] (env_softwareRequirements environ)).

End Doer.

(** ** The [Generator] class *)

(** The methods a derived class may override, as the record of an object's
    method table. [baseIdentifier], [baseVersionName] and [generate] are
    overridden by no class of the sources and are functions over it. *)
Record Generator : Type :=
  mkGenerator {
    applies : M bool;
    baseName : M string;
    baseVersion : M string;
    envVars : string -> M (list (string * string));
    aptKeysCommand : string -> M (option string);
    aptRepos : string -> M (list string);
    aptPackages : string -> M (list string);
    stencilaInstall : string -> M (option string);
    installFiles : string -> M (list (string * string));
    installCommand : string -> M (option string);
    projectFiles : string -> M (list (string * string));
    runCommand : string -> M (option string)
  }.

(** The own properties of the object literal [lookup] of [baseVersionName]. *)
Definition lookup : gmap string string :=
  <["14.04" := "trusty"]> (<["16.04" := "xenial"]> (<["18.04" := "bionic"]> ∅)).

(** [let [name, version] = baseIdentifier.split(':')]: [version] is the
    second piece, [undefined] when there is none, and [lookup[undefined]]
    reads the key ["undefined"]. [lookup] is a plain object, so the read
    also finds the members it inherits from [Object.prototype]. *)
Definition baseVersionName (baseIdentifier : string) : Js.value :=
  let version := Js.split ":" baseIdentifier !! 1%nat in
  Js.get lookup (Js.interp version).

Definition baseIdentifier (this : Generator) : M string :=
  let* v := baseVersion this in
  let joiner := if String.eqb v EmptyString then EmptyString else ":" in
  let* n := baseName this in
  let* v' := baseVersion this in
  ret (Js.cat [n; joiner; v']).

(** The defaults of the base class. *)
Definition Generator_base : Generator :=
  {| applies := ret false;
     baseName := ret "ubuntu";
     baseVersion := ret "18.04";
     envVars := fun _ => ret [];
     aptKeysCommand := fun _ => ret None;
     aptRepos := fun _ => ret [];
     aptPackages := fun _ => ret [];
     stencilaInstall := fun _ => ret None;
     installFiles := fun _ => ret [];
     installCommand := fun _ => ret None;
     projectFiles := fun _ => ret [];
     runCommand := fun _ => ret None |}.

(** *** The text of each section of the Dockerfile *)

Module Text.

Import Js.

(** Comment lines are added only when [comments] is set. *)
Definition note (comments : bool) (text : string) : string :=
  if comments then text else EmptyString.

Definition header (v stamp : string) : string :=
  cat ["# Generated by Dockter "; v; " at "; stamp; nl;
       "# To stop Dockter generating this file and start editing it yourself,"; nl;
       "# rename it to "; dq; "Dockerfile"; dq; "."; nl].

Definition from (baseIdentifier : string) : string :=
  cat ["FROM "; baseIdentifier; nl].

(** One assignment of the ENV statement. The pattern given to [replace] is
    a string, not a regular expression with the global flag: the first
    double quote of the value is replaced, by a backslash and a double quote. *)
Definition pair (kv : string * string) : string :=
  cat [fst kv; "="; dq;
       replace_first (Ascii.eqb "034"%char) (bs +:+ dq) (snd kv); dq].

Definition env (pairs : list (string * string)) : string :=
  cat [nl; "ENV "; join (cat [" "; bs; nl; "    "]) (map pair pairs); nl].

Definition bootstrap : string :=
  cat [nl; "RUN apt-get update "; bs; nl;
       " && DEBIAN_FRONTEND=noninteractive apt-get install -y "; bs; nl;
       "      apt-transport-https "; bs; nl;
       "      ca-certificates "; bs; nl;
       "      curl "; bs; nl;
       "      software-properties-common"; nl].

Definition repos (aptRepos : list string) : string :=
  cat [nl; "RUN ";
       join (cat [" "; bs; nl; " && "])
            (map (fun repo => cat ["apt-add-repository "; dq; repo; dq]) aptRepos);
       nl].

Definition keys (aptKeysCommand : option string) : string :=
  cat ["RUN "; interp aptKeysCommand; nl].

Definition packages (aptPackages : list string) : string :=
  cat [nl; "RUN apt-get update "; bs; nl;
       " && DEBIAN_FRONTEND=noninteractive apt-get install -y "; bs; nl;
       "      "; join (cat [" "; bs; nl; "      "]) aptPackages; " "; bs; nl;
       " && apt-get autoremove -y "; bs; nl;
       " && apt-get clean "; bs; nl;
       " && rm -rf /var/lib/apt/lists/*"; nl].

Definition stencila (stencilaInstall : option string) : string :=
  cat [nl; "RUN "; interp stencilaInstall; nl].

Definition user : string :=
  cat [nl; "RUN useradd --create-home --uid 1001 -s /bin/bash dockteruser"; nl;
       "USER dockteruser"; nl;
       "WORKDIR /home/dockteruser"; nl].

Definition marker : string := cat [nl; "# dockter"; nl].

Definition copy (files : list (string * string)) : string :=
  cat [nl;
       join nl (map (fun f => cat ["COPY "; fst f; " "; snd f]) files);
       nl].

Definition install (installCommand : option string) : string :=
  cat [nl; "RUN "; interp installCommand; nl].

Definition cmd (runCommand : option string) : string :=
  cat [nl; "CMD "; interp runCommand; nl].

End Text.

(** *** [Generator.generate] *)

Definition nonempty {A} (xs : list A) : bool :=
  match xs with [] => false | _ => true end.

Definition generate (this : Generator) (comments : bool) : M string :=
  let dockerfile := EmptyString in
  let* dockerfile :=
    (if comments
     then let* v := version in
          let* t := now in
          ret (dockerfile +:+ Text.header v (Js.toISOString t))
     else ret dockerfile) in
  let dockerfile :=
    dockerfile +:+ Text.note comments
      (Js.cat [Js.nl; "# This tells Docker which base image to use."; Js.nl]) in
  let* baseIdentifier := baseIdentifier this in
  let dockerfile := dockerfile +:+ Text.from baseIdentifier in
  let* a := applies this in
  if negb a then ret dockerfile else
  let* envVars := envVars this baseIdentifier in
  let dockerfile :=
    if nonempty envVars
    then dockerfile
         +:+ Text.note comments
               (Js.nl +:+ "# This section sets environment variables within the image.")
         +:+ Text.env envVars
    else dockerfile in
  let* aptRepos := aptRepos this baseIdentifier in
  let* aptKeysCommand := aptKeysCommand this baseIdentifier in
  let dockerfile :=
    if nonempty aptRepos || Js.truthy aptKeysCommand
    then dockerfile
         +:+ Text.note comments
               (Js.nl +:+ "# This section installs system packages needed to add extra system repositories.")
         +:+ Text.bootstrap
    else dockerfile in
  let dockerfile :=
    if nonempty aptRepos
    then dockerfile
         +:+ Text.note comments
               (Js.nl +:+ "# This section adds system repositories required to install extra system packages.")
         +:+ Text.repos aptRepos
    else dockerfile in
  let dockerfile :=
    if Js.truthy aptKeysCommand
    then dockerfile +:+ Text.keys aptKeysCommand
    else dockerfile in
  let* aptPackages := aptPackages this baseIdentifier in
  let dockerfile :=
    if nonempty aptPackages
    then dockerfile
         +:+ Text.note comments
               (Js.cat [Js.nl; "# This section installs system packages required for your project"; Js.nl;
                        "# If you need extra system packages add them here."])
         +:+ Text.packages aptPackages
    else dockerfile in
  let* stencilaInstall := stencilaInstall this baseIdentifier in
  let dockerfile :=
    if Js.truthy stencilaInstall
    then dockerfile
         +:+ Text.note comments
               (Js.nl +:+ "# This section runs commands to install Stencila execution hosts.")
         +:+ Text.stencila stencilaInstall
    else dockerfile in
  let dockerfile :=
    dockerfile
    +:+ Text.note comments
          (Js.cat [Js.nl; "# It's good practice to run Docker images as a non-root user."; Js.nl;
                   "# This section creates a new user, sets it as the user for the image, and it's"; Js.nl;
                   "# home directory as the working directory."])
    +:+ Text.user in
  let* installFiles := installFiles this baseIdentifier in
  let* installCommand := installCommand this baseIdentifier in
  let* projectFiles := projectFiles this baseIdentifier in
  let* runCommand := runCommand this baseIdentifier in
  let dockerfile :=
    if Js.truthy installCommand
    then dockerfile
         +:+ Text.note comments
               (Js.nl +:+ "# This is a special comment to tell Dockter to manage the build from here on")
         +:+ Text.marker
    else dockerfile in
  let dockerfile :=
    if nonempty installFiles
    then dockerfile
         +:+ Text.note comments
               (Js.nl +:+ "# This section copies package requirement files into the image")
         +:+ Text.copy installFiles
    else dockerfile in
  let dockerfile :=
    if Js.truthy installCommand
    then dockerfile
         +:+ Text.note comments
               (Js.nl +:+ "# This section runs commands to install the packages specified in the requirement file/s")
         +:+ Text.install installCommand
    else dockerfile in
  let dockerfile :=
    if nonempty projectFiles
    then dockerfile
         +:+ Text.note comments
               (Js.nl +:+ "# This section copies your project's files into the image")
         +:+ Text.copy projectFiles
    else dockerfile in
  let dockerfile :=
    if Js.truthy runCommand
    then dockerfile
         +:+ Text.note comments
               (Js.nl +:+ "# This tells Docker the default command to run when the container is started")
         +:+ Text.cmd runCommand
    else dockerfile in
  let* _ := Doer.write ".Dockerfile" dockerfile in
  ret dockerfile.

(** ** The [RGenerator] class *)

Module RGenerator.

Import Js.

(** The fields of an [RGenerator] object. *)
Record Object : Type :=
  mkObject {
    environ : SoftwareEnvironment;
    date : string
  }.

(** The constructor: the date of the MRAN snapshot is the environment's
    [datePublished], and the day before the construction when that is absent
    (or empty). *)
Definition new (environ : SoftwareEnvironment) : M Object :=
  let date := datePublished environ in
  let* date :=
    (if negb (truthy date)
     then let* t := now in
          ret (substring0 10 (toISOString (t - 24 * 3600 * 1000)))
     else ret (interp date)) in
  ret (mkObject environ date).

Definition appliesRuntime : string := "R".

Definition baseVersion : M string := ret "16.04".

Definition envVars (sysVersion : string) : M (list (string * string)) :=
  ret [("TZ", "Etc/UTC"); ("R_LIBS_USER", "~/R")].

Definition aptKeysCommand (sysVersion : string) : M (option string) :=
  ret (Some "apt-key adv --keyserver keyserver.ubuntu.com --recv-keys 51716619E084DAB9").

Definition aptRepos (this : Object) (base : string) : M (list string) :=
  ret [cat ["deb https://mran.microsoft.com/snapshot/"; date this;
            "/bin/linux/ubuntu "; show (baseVersionName base); "/"]].

Definition aptPackages (this : Object) (sysVersion : string) : M (list string) :=
  ret (Walk.aptPackages (environ this)).

Definition stencilaInstall (sysVersion : string) : M (option string) :=
  ret (Some (cat [
    "apt-get update "; bs; nl;
    " && apt-get install -y  zlib1g-dev libxml2-dev pkg-config "; bs; nl;
    " && apt-get autoremove -y "; bs; nl;
    " && apt-get clean "; bs; nl;
    " && rm -rf /var/lib/apt/lists/* "; bs; nl;
    " && Rscript -e 'install.packages("; dq; "devtools"; dq; ")' "; bs; nl;
    " && Rscript -e 'source("; dq; "https://bioconductor.org/biocLite.R"; dq;
      "); biocLite("; dq; "graph"; dq; ")' "; bs; nl;
    " && Rscript -e 'devtools::install_github("; dq; "r-lib/pkgbuild"; dq; ")' "; bs; nl;
    " && Rscript -e 'devtools::install_github("; dq; "stencila/r"; dq; ")'"])).

(** The character class [[^a-zA-Z0-9]]. *)
Definition not_alnum (c : ascii) : bool :=
  let n := nat_of_ascii c in
  negb ((97 <=? n) && (n <=? 122) || (65 <=? n) && (n <=? 90)
        || (48 <=? n) && (n <=? 57))%nat.

(** The text of the synthesized [.DESCRIPTION]. An absent name in [pkgs] is
    joined as the empty string. *)
Definition description (this : Object) (stamp : string) : string :=
  let pkgs := map (fun pkg => default EmptyString (name pkg))
                  (Doer.filterPackages (environ this) "R") in
  let name := replace_first not_alnum EmptyString
                (or_else (env_name (environ this)) "unnamed") in
  cat ["Package: "; name; nl;
       "Version: 1.0.0"; nl;
       "Date: "; date this; nl;
       "Imports:"; nl; "  "; join (cat [","; nl; "  "]) pkgs; nl;
       "Description: Generated by Dockter "; stamp; "."; nl;
       "  To stop Dockter generating this file and start editing it yourself, rename it to ";
       dq; "DESCRIPTION"; dq; "."; nl].

Definition installFiles (this : Object) (sysVersion : string)
  : M (list (string * string)) :=
  let* script := Doer.exists_ "install.R" in
  if script then ret [("install.R", "install.R")] else
  let* descriptor := Doer.exists_ "DESCRIPTION" in
  if descriptor then ret [("DESCRIPTION", "DESCRIPTION")] else
  let* t := now in
  let desc := description this (toISOString t) in
  let* _ := Doer.write ".DESCRIPTION" desc in
  ret [(".DESCRIPTION", "DESCRIPTION")].

Definition installCommand (sysVersion : string) : M (option string) :=
  let cmd := "mkdir ~/R" in
  let* script := Doer.exists_ "install.R" in
  if script
  then ret (Some (cmd +:+ cat [" "; bs; nl; " && Rscript install.R"]))
  else
    let* descriptor := Doer.exists_ "DESCRIPTION" in
    let* synthesized :=
      (if descriptor then ret true else Doer.exists_ ".DESCRIPTION") in
    if synthesized
    then ret (Some (cmd +:+ cat [" "; bs; nl; " && bash -c "; dq;
                "Rscript <(curl -sL https://unpkg.com/@stencila/dockter/src/install.R)"; dq]))
    else ret (Some cmd).

Definition projectFiles (sysVersion : string) : M (list (string * string)) :=
  let* rfiles := Doer.glob "**/*.R" in
  ret (map (fun file => (file, file)) rfiles).

(** [rfiles.includes(x)]. *)
Definition includes (rfiles : list string) (x : string) : bool :=
  existsb (String.eqb x) rfiles.

Definition runCommand (sysVersion : string) : M (option string) :=
  let* rfiles := Doer.glob "**/*.R" in
  match rfiles with
  | [] => ret None
  | first :: _ =>
      let script :=
        if includes rfiles "main.R" then "main.R"
        else if includes rfiles "cmd.R" then "cmd.R"
        else first in
      ret (Some (cat ["Rscript "; script]))
  end.

(** The method table of an [RGenerator] object: the methods the class
    defines, and those of [Generator] for the rest. The class defines
    [appliesRuntime] and leaves [applies] as inherited. *)
Definition methods (this : Object) : Generator :=
  mkGenerator
    (applies Generator_base)
    (baseName Generator_base)
    baseVersion
    envVars
    aptKeysCommand
    (aptRepos this)
    (aptPackages this)
    stencilaInstall
    (installFiles this)
    installCommand
    projectFiles
    runCommand.

End RGenerator.

(** A derived class that overrides [applies], as the collaborator that
    selects the adapters of a project does. *)
Definition with_applies (a : M bool) (g : Generator) : Generator :=
  {| applies := a;
     baseName := baseName g;
     baseVersion := baseVersion g;
     envVars := envVars g;
     aptKeysCommand := aptKeysCommand g;
     aptRepos := aptRepos g;
     aptPackages := aptPackages g;
     stencilaInstall := stencilaInstall g;
     installFiles := installFiles g;
     installCommand := installCommand g;
     projectFiles := projectFiles g;
     runCommand := runCommand g |}.

(** A derived class that overrides [baseVersion]. *)
Definition with_baseVersion (v : M string) (g : Generator) : Generator :=
  {| applies := applies g;
     baseName := baseName g;
     baseVersion := v;
     envVars := envVars g;
     aptKeysCommand := aptKeysCommand g;
     aptRepos := aptRepos g;
     aptPackages := aptPackages g;
     stencilaInstall := stencilaInstall g;
     installFiles := installFiles g;
     installCommand := installCommand g;
     projectFiles := projectFiles g;
     runCommand := runCommand g |}.

(** ** The dependency walk, as the specification words it *)

Module WalkSpec.

(** A node of the forest with the chain of its ancestors, outermost first. *)
Definition Occurrence : Type := list SoftwarePackage * SoftwarePackage.

(** Every node below [pkg] with its chain of ancestors, in the order a
    depth-first traversal meets them; [anc] is the chain of [pkg] itself. *)
Fixpoint below (anc : list SoftwarePackage) (pkg : SoftwarePackage)
  : list Occurrence :=
  match pkg with
  | mkPackage _ _ reqs =>
      match reqs with
      | None => []
      | Some subs =>
          (fix each (subs : list SoftwarePackage) : list Occurrence :=
             match subs with
             | [] => []
             | sub :: rest =>
                 ((anc ++ [pkg], sub) :: below (anc ++ [pkg]) sub) ++ each rest
             end) subs
      end
  end.

Definition nodes (anc : list SoftwarePackage) (pkg : SoftwarePackage)
  : list Occurrence :=
  (anc, pkg) :: below anc pkg.

(** Every node of the forest under the top-level requirements. *)
Definition forest (pkgs : list SoftwarePackage) : list Occurrence :=
  flat_map (nodes []) pkgs.

(** A node is reached through a chain of R-tagged packages: it has an
    ancestor, and every ancestor is owned by the R ecosystem. *)
Definition through_R (anc : list SoftwarePackage) : bool :=
  nonempty anc && forallb (platform_is "R") anc.

(** A native-tagged node reachable through a chain of R-tagged packages. *)
Definition native_reachable (o : Occurrence) : bool :=
  platform_is "deb" (snd o) && through_R (fst o).

(** The name recorded for a node: the empty string when it has none. *)
Definition recorded_name (o : Occurrence) : string :=
  Js.or_else (name (snd o)) EmptyString.

Definition native_names (environ : SoftwareEnvironment) : list string :=
  map recorded_name
      (List.filter native_reachable
         (forest (default [] (env_softwareRequirements environ)))).

End WalkSpec.

(** ** Example forests *)

Module Examples.

Definition deb (n : string) : SoftwarePackage :=
  mkPackage (Some n) (Some "deb") None.

Definition pkg (tag n : string) (subs : list SoftwarePackage) : SoftwarePackage :=
  mkPackage (Some n) (Some tag) (Some subs).

(** The forest of the specification's scenario: R-tagged A has the native
    child B and the R-tagged child C, whose child D is native; next to them a
    native package under a node of another ecosystem, a native package
    without a name, and a native package at the top level. *)
Definition scenario : SoftwareEnvironment :=
  mkEnvironment (Some "scenario") (Some "2018-10-05")
    (Some [pkg "R" "A" [deb "B";
                        pkg "R" "C" [deb "D"];
                        pkg "Python" "E" [deb "F"];
                        mkPackage None (Some "deb") None;
                        deb "B"];
           deb "G"]).

(** A project folder with two R scripts and nothing to install from, at
    midnight of 2018-10-05 (UTC). *)
Definition project : World :=
  mkWorld ∅
    (fun pattern => if String.eqb pattern "**/*.R" then ["b.R"; "main.R"] else [])
    (fun _ => 1538697600000%Z) 0 "0.1.0".

(** The same project one day later. *)
Definition project_next_day : World :=
  mkWorld ∅
    (fun pattern => if String.eqb pattern "**/*.R" then ["b.R"; "main.R"] else [])
    (fun _ => 1538784000000%Z) 0 "0.1.0".

(** The same project, with an install script and a descriptor of the
    user's own. *)
Definition project_with_script : World :=
  mkWorld (<["install.R" := "install.packages('ggplot2')"]>
             (<["DESCRIPTION" := "Package: mine"]> ∅))
    (fun pattern => if String.eqb pattern "**/*.R" then ["b.R"; "main.R"] else [])
    (fun _ => 1538697600000%Z) 0 "0.1.0".

Definition project_with_descriptor : World :=
  mkWorld (<["DESCRIPTION" := "Package: mine"]> ∅)
    (fun pattern => if String.eqb pattern "**/*.R" then ["cmd.R"; "a.R"] else [])
    (fun _ => 1538697600000%Z) 0 "0.1.0".

(** An environment with one R package and no publication date. *)
Definition undated : SoftwareEnvironment :=
  mkEnvironment (Some "my proj") None
    (Some [pkg "R" "ggplot2" [deb "libxml2"]]).

(** An R generator for [scenario], selected for the project. *)
Definition selected : Generator :=
  with_applies (ret true)
    (RGenerator.methods (RGenerator.mkObject scenario "2018-10-05")).

(** The same generator on a base image of an unknown version. *)
Definition on_unknown_base : Generator :=
  with_baseVersion (ret "20.04") selected.

(** The same generator on a base image whose version is the name of a member
    of [Object.prototype]. *)
Definition on_inherited_base : Generator :=
  with_baseVersion (ret "constructor") selected.

(** An adapter that exports a value holding two double quotes. *)
Definition quoting : Generator :=
  mkGenerator (ret true) (ret "ubuntu") (ret "18.04")
    (fun _ => ret [("GREETING", Js.cat ["say "; Js.dq; "hi"; Js.dq])])
    (fun _ => ret None) (fun _ => ret []) (fun _ => ret [])
    (fun _ => ret None) (fun _ => ret []) (fun _ => ret None)
    (fun _ => ret []) (fun _ => ret None).

End Examples.

(** ** The composition, section by section *)

(** What the adapter answers during one composition, in the order
    [generate] asks. *)
Record Answers : Type :=
  mkAnswers {
    the_envVars : list (string * string);
    the_aptRepos : list string;
    the_aptKeysCommand : option string;
    the_aptPackages : list string;
    the_stencilaInstall : option string;
    the_installFiles : list (string * string);
    the_installCommand : option string;
    the_projectFiles : list (string * string);
    the_runCommand : option string
  }.

Definition consult (this : Generator) (baseIdentifier : string) : M Answers :=
  let* envVars := envVars this baseIdentifier in
  let* aptRepos := aptRepos this baseIdentifier in
  let* aptKeysCommand := aptKeysCommand this baseIdentifier in
  let* aptPackages := aptPackages this baseIdentifier in
  let* stencilaInstall := stencilaInstall this baseIdentifier in
  let* installFiles := installFiles this baseIdentifier in
  let* installCommand := installCommand this baseIdentifier in
  let* projectFiles := projectFiles this baseIdentifier in
  let* runCommand := runCommand this baseIdentifier in
  ret (mkAnswers envVars aptRepos aptKeysCommand aptPackages stencilaInstall
                 installFiles installCommand projectFiles runCommand).

(** The world in which [generate] starts asking the adapter: the clock has
    been read once when the heading comment is written. *)
Definition started (comments : bool) (w : World) : World :=
  if comments then after now w else w.

(** One invocation on an environment: the R generator is constructed for
    it, selected or not for the project by [selects], and asked for the
    Dockerfile. *)
Definition compose (environ : SoftwareEnvironment) (selects comments : bool)
  : M string :=
  let* this := RGenerator.new environ in
  generate (with_applies (ret selects) (RGenerator.methods this)) comments.

(** Two worlds hold the same project as far as the R generator looks at it:
    the same answers on the files it tests, and the same R scripts. *)
Definition same_project (w1 w2 : World) : Prop :=
  result (Doer.exists_ "install.R") w1 = result (Doer.exists_ "install.R") w2 /\
  result (Doer.exists_ "DESCRIPTION") w1 = result (Doer.exists_ "DESCRIPTION") w2 /\
  globbed w1 "**/*.R" = globbed w2 "**/*.R".

Module Sections.

(** A section that is written only when its content is present, headed by
    its comment when comments are wanted. *)
Definition optional (comments present : bool) (comment text : string) : string :=
  if present then Text.note comments comment +:+ text else EmptyString.

Definition heading (comments : bool) (w : World) : string :=
  Text.note comments (Text.header (VERSION w) (Js.toISOString (result now w))).

Definition base (comments : bool) (baseIdentifier : string) : string :=
  Text.note comments
    (Js.cat [Js.nl; "# This tells Docker which base image to use."; Js.nl])
  +:+ Text.from baseIdentifier.

Definition environment (c : bool) (a : Answers) : string :=
  optional c (nonempty (the_envVars a))
    (Js.nl +:+ "# This section sets environment variables within the image.")
    (Text.env (the_envVars a)).

Definition bootstrap (c : bool) (a : Answers) : string :=
  optional c (nonempty (the_aptRepos a) || Js.truthy (the_aptKeysCommand a))
    (Js.nl +:+ "# This section installs system packages needed to add extra system repositories.")
    Text.bootstrap.

Definition repository_add (c : bool) (a : Answers) : string :=
  optional c (nonempty (the_aptRepos a))
    (Js.nl +:+ "# This section adds system repositories required to install extra system packages.")
    (Text.repos (the_aptRepos a)).

Definition key_registration (c : bool) (a : Answers) : string :=
  optional c (Js.truthy (the_aptKeysCommand a)) EmptyString
    (Text.keys (the_aptKeysCommand a)).

Definition system_packages (c : bool) (a : Answers) : string :=
  optional c (nonempty (the_aptPackages a))
    (Js.cat [Js.nl; "# This section installs system packages required for your project"; Js.nl;
             "# If you need extra system packages add them here."])
    (Text.packages (the_aptPackages a)).

Definition ecosystem_bootstrap (c : bool) (a : Answers) : string :=
  optional c (Js.truthy (the_stencilaInstall a))
    (Js.nl +:+ "# This section runs commands to install Stencila execution hosts.")
    (Text.stencila (the_stencilaInstall a)).

Definition privilege_drop (c : bool) : string :=
  Text.note c
    (Js.cat [Js.nl; "# It's good practice to run Docker images as a non-root user."; Js.nl;
             "# This section creates a new user, sets it as the user for the image, and it's"; Js.nl;
             "# home directory as the working directory."])
  +:+ Text.user.

Definition managed_marker (c : bool) (a : Answers) : string :=
  optional c (Js.truthy (the_installCommand a))
    (Js.nl +:+ "# This is a special comment to tell Dockter to manage the build from here on")
    Text.marker.

Definition install_files (c : bool) (a : Answers) : string :=
  optional c (nonempty (the_installFiles a))
    (Js.nl +:+ "# This section copies package requirement files into the image")
    (Text.copy (the_installFiles a)).

Definition install_command (c : bool) (a : Answers) : string :=
  optional c (Js.truthy (the_installCommand a))
    (Js.nl +:+ "# This section runs commands to install the packages specified in the requirement file/s")
    (Text.install (the_installCommand a)).

Definition project_files (c : bool) (a : Answers) : string :=
  optional c (nonempty (the_projectFiles a))
    (Js.nl +:+ "# This section copies your project's files into the image")
    (Text.copy (the_projectFiles a)).

Definition run_command (c : bool) (a : Answers) : string :=
  optional c (Js.truthy (the_runCommand a))
    (Js.nl +:+ "# This tells Docker the default command to run when the container is started")
    (Text.cmd (the_runCommand a)).

(** The steps that run as root, the privilege drop, and the steps that run
    as the non-root user. *)
Definition as_root (c : bool) (a : Answers) : list string :=
  [environment c a; bootstrap c a; repository_add c a; key_registration c a;
   system_packages c a; ecosystem_bootstrap c a].

Definition as_user (c : bool) (a : Answers) : list string :=
  [managed_marker c a; install_files c a; install_command c a;
   project_files c a; run_command c a].

End Sections.

(** ** Further notions the properties are stated with *)

Module Notions.

(** The forest as the walk can see it: below a node that the R ecosystem
    does not own, nothing is kept. *)
Fixpoint prune (pkg : SoftwarePackage) : SoftwarePackage :=
  match pkg with
  | mkPackage n rp reqs =>
      if match rp with Some t => String.eqb t "R" | None => false end
      then mkPackage n rp
             (match reqs with
              | None => None
              | Some subs => Some (map prune subs)
              end)
      else mkPackage n rp None
  end.

(** No character of the string satisfies [p]. *)
Fixpoint none_of (p : ascii -> bool) (s : string) : Prop :=
  match s with
  | EmptyString => True
  | String c rest => p c = false /\ none_of p rest
  end.

(** No colon in a string. *)
Definition colon_free (s : string) : Prop :=
  none_of (fun c => Ascii.eqb c ":"%char) s.

(** The piece of a string before its first colon. *)
Fixpoint before_colon (s : string) : string :=
  match s with
  | EmptyString => EmptyString
  | String c rest =>
      if Ascii.eqb c ":"%char then EmptyString else String c (before_colon rest)
  end.

(** A class derived from [Generator] that overrides [baseName] and
    [baseVersion] with constants. *)
Definition on_base (n v : string) (g : Generator) : Generator :=
  mkGenerator (applies g) (ret n) (ret v) (envVars g) (aptKeysCommand g)
    (aptRepos g) (aptPackages g) (stencilaInstall g) (installFiles g)
    (installCommand g) (projectFiles g) (runCommand g).

(** The number of milliseconds in a day. *)
Definition day : Z := 86400000%Z.

End Notions.

(** * Properties *)

(** ** Induction over the dependency forest *)

Section PackageInduction.

Variable P : SoftwarePackage -> Prop.

Hypothesis step :
  forall n rp reqs,
    Forall P (default [] reqs) -> P (mkPackage n rp reqs).

Fixpoint SoftwarePackage_forest_ind (pkg : SoftwarePackage) : P pkg :=
  match pkg with
  | mkPackage n rp reqs =>
      step n rp reqs
        (match reqs as r return Forall P (default [] r) with
         | None => List.Forall_nil P
         | Some subs =>
             (fix each (subs : list SoftwarePackage) : Forall P subs :=
                match subs with
                | [] => List.Forall_nil P
                | sub :: rest =>
                    @List.Forall_cons _ P sub rest (SoftwarePackage_forest_ind sub) (each rest)
                end) subs
         end)
  end.

End PackageInduction.

(** ** The dependency walk *)

Module WalkFacts.

Import Walk WalkSpec.

Lemma find_unfold pkg debpkgs :
  find pkg debpkgs =
  if platform_is "R" pkg then fold_left visit (children pkg) debpkgs else debpkgs.
Proof.
  destruct pkg as [n rp reqs]. unfold platform_is, children. simpl.
  destruct (match rp with Some t => (t =? "R")%string | None => false end);
    simpl; [|reflexivity].
  destruct reqs as [subs|]; simpl; [|reflexivity].
  revert debpkgs. induction subs as [|sub rest IH]; intros acc; simpl.
  - reflexivity.
  - unfold visit at 2. destruct (platform_is "deb" sub); apply IH.
Qed.

Lemma below_unfold anc pkg :
  below anc pkg = flat_map (nodes (anc ++ [pkg])) (children pkg).
Proof.
  destruct pkg as [n rp reqs]. unfold children. simpl.
  destruct reqs as [subs|]; simpl; [|reflexivity].
  generalize (anc ++ [mkPackage n rp (Some subs)]). intros anc'.
  induction subs as [|sub rest IH]; simpl; [reflexivity|].
  now rewrite IH.
Qed.

Lemma through_R_extend anc pkg :
  forallb (platform_is "R") anc = true ->
  through_R (anc ++ [pkg]) = platform_is "R" pkg.
Proof.
  intros H. unfold through_R. rewrite forallb_app, H. simpl.
  rewrite andb_true_r. destruct anc; reflexivity.
Qed.

(** Below a node that some ancestor cuts off from R, nothing is recorded. *)
Lemma cut_off pkg :
  forall anc,
    forallb (platform_is "R") anc = false ->
    List.filter native_reachable (nodes anc pkg) = [].
Proof.
  induction pkg as [n rp reqs IH] using SoftwarePackage_forest_ind.
  intros anc Hanc. unfold nodes. rewrite below_unfold.
  cbn [List.filter].
  unfold native_reachable at 1, through_R. cbn [fst]. rewrite Hanc.
  rewrite !andb_false_r.
  assert (Hanc' : forallb (platform_is "R") (anc ++ [mkPackage n rp reqs]) = false)
    by now rewrite forallb_app, Hanc.
  generalize dependent (anc ++ [mkPackage n rp reqs]). intros anc' Hanc'.
  unfold children. cbn [softwareRequirements].
  induction IH as [|sub rest Hsub _ IHrest]; cbn [flat_map]; [reflexivity|].
  rewrite List.filter_app, IHrest, app_nil_r.
  now apply Hsub.
Qed.

Lemma cut_off_children subs :
  forall anc,
    forallb (platform_is "R") anc = false ->
    List.filter native_reachable (flat_map (nodes anc) subs) = [].
Proof.
  intros anc Hanc. induction subs as [|sub rest IH]; cbn [flat_map]; [reflexivity|].
  now rewrite List.filter_app, IH, cut_off.
Qed.

(** [find] appends to the accumulator the names the specification records
    below the node, whenever the node is reached through R-tagged ancestors
    only. *)
Lemma find_below pkg :
  forall anc debpkgs,
    forallb (platform_is "R") anc = true ->
    find pkg debpkgs =
    debpkgs ++ map recorded_name (List.filter native_reachable (below anc pkg)).
Proof.
  induction pkg as [n rp reqs IH] using SoftwarePackage_forest_ind.
  intros anc acc Hanc. rewrite find_unfold, below_unfold.
  destruct (platform_is "R" (mkPackage n rp reqs)) eqn:HR.
  - assert (Hanc' : forallb (platform_is "R") (anc ++ [mkPackage n rp reqs]) = true)
      by (rewrite forallb_app, Hanc; cbn [forallb]; now rewrite HR).
    assert (Hthru : through_R (anc ++ [mkPackage n rp reqs]) = true)
      by (rewrite through_R_extend; assumption).
    generalize dependent (anc ++ [mkPackage n rp reqs]). intros anc' Hanc' Hthru.
    unfold children. cbn [softwareRequirements]. revert acc.
    induction IH as [|sub rest Hsub _ IHrest]; intros acc; cbn [flat_map fold_left].
    + now rewrite app_nil_r.
    + rewrite IHrest. rewrite List.filter_app, map_app, app_assoc. f_equal.
      unfold nodes. cbn [List.filter].
      unfold visit, native_reachable at 1. cbn [fst snd]. rewrite Hthru, andb_true_r.
      destruct (platform_is "deb" sub) eqn:Hdeb; cbn [map].
      * assert (Hcut : List.filter native_reachable (below anc' sub) = []).
        { rewrite below_unfold. apply cut_off_children.
          rewrite forallb_app. cbn [forallb].
          assert (platform_is "R" sub = false) as ->.
          { unfold platform_is in *. destruct (runtimePlatform sub) as [t|]; [|reflexivity].
            apply String.eqb_eq in Hdeb. now subst t. }
          now rewrite andb_false_r. }
        now rewrite Hcut.
      * now apply Hsub.
  - rewrite cut_off_children; [now rewrite app_nil_r|].
    rewrite forallb_app. cbn [forallb]. now rewrite HR, andb_false_r.
Qed.

Lemma find_all_forest pkgs :
  forall debpkgs,
    find_all pkgs debpkgs =
    debpkgs ++ map recorded_name (List.filter native_reachable (forest pkgs)).
Proof.
  unfold find_all, forest.
  induction pkgs as [|pkg rest IH]; intros acc; cbn [flat_map fold_left].
  - now rewrite app_nil_r.
  - rewrite IH. rewrite List.filter_app, map_app, app_assoc. f_equal.
    unfold nodes. cbn [List.filter].
    unfold native_reachable at 1, through_R. cbn [fst nonempty andb].
    rewrite andb_false_r. now apply find_below.
Qed.

End WalkFacts.

(** C1. The R adapter's [aptPackages] is exactly the list of the names of the
    native-tagged (deb) packages that are reachable from the environment's
    requirements through a chain of R-tagged packages, in traversal order,
    duplicates kept, the empty string standing for an absent name, followed
    by the base package r-base. *)
Theorem aptPackages_native_reachable (environ : SoftwareEnvironment) :
  Walk.aptPackages environ = WalkSpec.native_names environ ++ ["r-base"].
Proof.
  unfold Walk.aptPackages, WalkSpec.native_names.
  now rewrite WalkFacts.find_all_forest.
Qed.

(** The scenario of the specification: B and D are returned, D through the
    intermediate R-tagged node C; F, under a node of another ecosystem, and G,
    at the top level, are not. *)
Example aptPackages_scenario :
  Walk.aptPackages Examples.scenario = ["B"; "D"; EmptyString; "B"; "r-base"].
Proof. reflexivity. Qed.

(** ** Strings *)

Lemma append_nil_r (s : string) : s +:+ EmptyString = s.
Proof.
  induction s as [|c s IH]; [reflexivity|].
  change (String c (s +:+ EmptyString) = String c s). now f_equal.
Qed.

Lemma append_assoc (s t u : string) : (s +:+ t) +:+ u = s +:+ (t +:+ u).
Proof.
  induction s as [|c s IH]; [reflexivity|].
  change (String c ((s +:+ t) +:+ u) = String c (s +:+ (t +:+ u))). now f_equal.
Qed.

Lemma cat_cons (s : string) (rest : list string) :
  Js.cat (s :: rest) = s +:+ Js.cat rest.
Proof. reflexivity. Qed.

Lemma cat_app (xs ys : list string) :
  Js.cat (xs ++ ys) = Js.cat xs +:+ Js.cat ys.
Proof.
  induction xs as [|x xs IH]; [reflexivity|].
  change (x +:+ Js.cat (xs ++ ys) = (x +:+ Js.cat xs) +:+ Js.cat ys).
  now rewrite IH, append_assoc.
Qed.

Lemma occurs_here (s : string) : Js.occurs s s.
Proof. exists EmptyString, EmptyString. now rewrite append_nil_r. Qed.

Lemma occurs_after (s pre t : string) : Js.occurs s t -> Js.occurs s (pre +:+ t).
Proof.
  intros (p & q & ->). exists (pre +:+ p), q. now rewrite append_assoc.
Qed.

Lemma occurs_before (s t post : string) : Js.occurs s t -> Js.occurs s (t +:+ post).
Proof.
  intros (p & q & ->). exists p, (q +:+ post). now rewrite !append_assoc.
Qed.

Lemma occurs_trans (s t u : string) : Js.occurs s t -> Js.occurs t u -> Js.occurs s u.
Proof.
  intros (p & q & ->) (p' & q' & ->). exists (p' +:+ p), (q +:+ q').
  now rewrite !append_assoc.
Qed.

Create HintDb occurs.
#[export] Hint Resolve occurs_here occurs_after occurs_before : occurs.

(** ** The composer, section by section *)

Module Composer.

Import Sections.

Lemma emit (d : string) (c b : bool) (comment text : string) :
  (if b then d +:+ Text.note c comment +:+ text else d)
  = d +:+ optional c b comment text.
Proof. unfold optional. destruct b; [reflexivity | now rewrite append_nil_r]. Qed.

Lemma emit_bare (d : string) (b : bool) (text : string) :
  (if b then d +:+ text else d) = d +:+ (if b then text else EmptyString).
Proof. destruct b; [reflexivity | now rewrite append_nil_r]. Qed.

Ltac zeta1 :=
  match goal with
  | |- context G [let x := ?v in @?b x] =>
      let t := eval cbv beta in (b v) in
      let g := context G [t] in
      change g
  end.

Ltac fold_emit :=
  repeat match goal with
    | |- context [if ?b then ?d +:+ Text.note ?c ?n +:+ ?t else ?d] =>
        rewrite (emit d c b n t)
    | |- context [if ?b then ?d +:+ Text.keys ?k else ?d] =>
        rewrite (emit_bare d b (Text.keys k))
    end.

Ltac tidy :=
  repeat first
    [ zeta1; fold_emit | progress cbv beta iota delta [fst snd] ].

(** One run of [generate], with the adapter's answers gathered by [consult]. *)
Lemma generate_run (g : Generator) (c : bool) (w : World) :
  generate g c w =
  let '(id, w2) := baseIdentifier g (started c w) in
  let '(a, w3) := applies g w2 in
  if negb a then (heading c w +:+ base c id, w3)
  else
    let '(ans, w4) := consult g id w3 in
    let out :=
      heading c w +:+ base c id +:+ Js.cat (as_root c ans)
      +:+ privilege_drop c +:+ Js.cat (as_user c ans) in
    (out, after (Doer.write ".Dockerfile" out) w4).
Proof.
  cbv delta [generate consult bind ret version now started heading result after].
  cbv beta.
  destruct c; tidy.
  all: destruct (baseIdentifier g _) as [id w2]; tidy.
  all: destruct (applies g _) as [a w3];
    (destruct a; cbv beta iota delta [negb]; tidy;
     [|unfold base, Text.note; rewrite ?append_assoc; reflexivity]).
  all: destruct (envVars g _ _) as [ev w4]. all: tidy.
  all: destruct (aptRepos g _ _) as [ar w5]; tidy.
  all: destruct (aptKeysCommand g _ _) as [ak w6]; tidy.
  all: destruct (aptPackages g _ _) as [ap w7]; tidy.
  all: destruct (stencilaInstall g _ _) as [si w8]; tidy.
  all: destruct (installFiles g _ _) as [fi w9]; tidy.
  all: destruct (installCommand g _ _) as [ic w10]; tidy.
  all: destruct (projectFiles g _ _) as [pf w11]; tidy.
  all: destruct (runCommand g _ _) as [rc w12]. all: tidy.
  all: match goal with
       | |- (let '(_, w') := Doer.write _ ?d _ in _) = (?o, _) =>
           assert (Hout : d = o);
           [| rewrite Hout; reflexivity]
       end.
  all: unfold as_root, as_user, Js.cat, fold_right, base, privilege_drop,
      environment, bootstrap, repository_add, key_registration, system_packages,
      ecosystem_bootstrap, managed_marker, install_files, install_command,
      project_files, run_command;
    cbv beta iota delta [the_envVars the_aptRepos the_aptKeysCommand the_aptPackages
         the_stencilaInstall the_installFiles the_installCommand
         the_projectFiles the_runCommand];
    rewrite !append_assoc, ?append_nil_r; unfold optional at 4, Text.note; reflexivity.
Qed.

End Composer.

Module ComposerFacts.

Import Sections Composer.

Lemma generate_early (g : Generator) (c : bool) (w : World) :
  let w1 := started c w in
  result (applies g) (after (baseIdentifier g) w1) = false ->
  generate g c w =
  (heading c w +:+ base c (result (baseIdentifier g) w1),
   after (applies g) (after (baseIdentifier g) w1)).
Proof.
  cbv zeta. unfold result, after. rewrite generate_run.
  destruct (baseIdentifier g (started c w)) as [id w2]. cbn [fst snd].
  destruct (applies g w2) as [a w3]. cbn [fst snd].
  now intros ->.
Qed.

Lemma generate_full (g : Generator) (c : bool) (w : World) :
  let w1 := started c w in
  let id := result (baseIdentifier g) w1 in
  let w3 := after (applies g) (after (baseIdentifier g) w1) in
  result (applies g) (after (baseIdentifier g) w1) = true ->
  let out :=
    heading c w +:+ base c id +:+ Js.cat (as_root c (result (consult g id) w3))
    +:+ privilege_drop c +:+ Js.cat (as_user c (result (consult g id) w3)) in
  generate g c w =
  (out, after (Doer.write ".Dockerfile" out) (after (consult g id) w3)).
Proof.
  cbv zeta. unfold result, after. rewrite generate_run.
  destruct (baseIdentifier g (started c w)) as [id w2]. cbn [fst snd].
  destruct (applies g w2) as [a w3]. cbn [fst snd].
  intros ->. cbn [negb].
  now destruct (consult g id w3) as [ans w4].
Qed.

(** The composition of an adapter that applies, section by section. *)
Lemma generate_sections (g : Generator) (c : bool) (w : World) :
  let w1 := started c w in
  let id := result (baseIdentifier g) w1 in
  let a := result (consult g id) (after (applies g) (after (baseIdentifier g) w1)) in
  result (applies g) (after (baseIdentifier g) w1) = true ->
  result (generate g c) w =
    Js.cat [heading c w; base c id;
            environment c a; bootstrap c a; repository_add c a;
            key_registration c a; system_packages c a; ecosystem_bootstrap c a;
            privilege_drop c;
            managed_marker c a; install_files c a; install_command c a;
            project_files c a; run_command c a].
Proof.
  cbv zeta. intros Happ.
  pose proof (f_equal fst (generate_full g c w Happ)) as Hrun.
  cbv zeta in Hrun. cbn [fst] in Hrun.
  change (fst (generate g c w)) with (result (generate g c) w) in Hrun.
  rewrite Hrun. clear Hrun.
  set (a := result (consult g _) _).
  unfold as_root, as_user.
  rewrite !cat_cons. rewrite ?append_assoc.
  change (Js.cat []) with EmptyString. now rewrite !append_nil_r.
Qed.

End ComposerFacts.

(** C2. When the adapter's [applies] answers false, the composition is the
    base-image line alone, [FROM <baseIdentifier>], preceded by the leading
    comments only when comments are wanted, whatever the other operations of
    the adapter would answer. This is the only early return: when [applies]
    answers true the pipeline runs to its last step, which writes the text it
    returns to [.Dockerfile]. *)
Theorem not_applicable_base_image_only (g : Generator) (c : bool) (w : World) :
  let w1 := started c w in
  let id := result (baseIdentifier g) w1 in
  (result (applies g) (after (baseIdentifier g) w1) = false ->
   result (generate g c) w =
     (if c
      then Js.cat [Text.header (VERSION w) (Js.toISOString (clock w (reads w)));
                   Js.nl; "# This tells Docker which base image to use."; Js.nl]
      else EmptyString)
     +:+ "FROM " +:+ id +:+ Js.nl)
  /\
  (result (applies g) (after (baseIdentifier g) w1) = true ->
   Js.occurs Text.user (result (generate g c) w) /\
   folder (after (generate g c) w) !! ".Dockerfile"
     = Some (result (generate g c) w)).
Proof.
  cbv zeta. split; intros Happ.
  - unfold result at 1. rewrite (ComposerFacts.generate_early g c w Happ).
    cbn [fst]. unfold Sections.heading, Sections.base, Text.from, Text.note, result.
    destruct c; cbn [now fst Js.cat fold_right];
      rewrite ?append_assoc, ?append_nil_r; reflexivity.
  - unfold result at 1 2, after at 1.
    rewrite (ComposerFacts.generate_full g c w Happ). cbn [fst snd]. split.
    + unfold Sections.privilege_drop. auto 8 with occurs.
    + unfold after, Doer.write. cbn [snd folder]. apply lookup_insert_eq.
Qed.

Lemma not_applicable_base_image_only_witness :
  result (generate (RGenerator.methods (RGenerator.mkObject Examples.scenario "2018-10-05"))
            false) Examples.project
  = EmptyString +:+ "FROM " +:+ "ubuntu:16.04" +:+ Js.nl.
Proof.
  exact (proj1 (not_applicable_base_image_only
                  (RGenerator.methods (RGenerator.mkObject Examples.scenario "2018-10-05"))
                  false Examples.project) eq_refl).
Defined.

(** The R generator of the sources inherits [applies] from the base class,
    which answers false: its composition is the base-image line. *)
Example not_applicable_example :
  result (generate (RGenerator.methods (RGenerator.mkObject Examples.scenario "2018-10-05"))
            false) Examples.project
  = Js.cat ["FROM ubuntu:16.04"; Js.nl]
  /\ result (generate (RGenerator.methods (RGenerator.mkObject Examples.scenario "2018-10-05"))
               true) Examples.project
     = Js.cat ["# Generated by Dockter 0.1.0 at 2018-10-05T00:00:00.000Z"; Js.nl;
               "# To stop Dockter generating this file and start editing it yourself,"; Js.nl;
               "# rename it to "; Js.dq; "Dockerfile"; Js.dq; "."; Js.nl;
               Js.nl;
               "# This tells Docker which base image to use."; Js.nl;
               "FROM ubuntu:16.04"; Js.nl]
  /\ folder (after (generate (RGenerator.methods
                               (RGenerator.mkObject Examples.scenario "2018-10-05"))
                             false) Examples.project) !! ".Dockerfile"
     = None.
Proof. repeat split; vm_compute; reflexivity. Qed.

(** C3. When [applies] answers true the composition is made of the sections
    in the fixed order: base image, environment, repository bootstrap,
    repository-add, key registration, system-package install, ecosystem
    bootstrap, privilege drop, managed-install marker, install-file staging,
    install command, project-file staging, run command. A section whose
    content is absent contributes nothing; the privilege drop is written
    unconditionally, after every step that runs as root and before every
    step that runs as the non-root user. *)
Theorem sections_in_fixed_order (g : Generator) (c : bool) (w : World) :
  let w1 := started c w in
  let id := result (baseIdentifier g) w1 in
  let a := result (consult g id) (after (applies g) (after (baseIdentifier g) w1)) in
  result (applies g) (after (baseIdentifier g) w1) = true ->
  result (generate g c) w =
    Js.cat [Sections.heading c w;
            Sections.base c id;
            Sections.environment c a;
            Sections.bootstrap c a;
            Sections.repository_add c a;
            Sections.key_registration c a;
            Sections.system_packages c a;
            Sections.ecosystem_bootstrap c a;
            Sections.privilege_drop c;
            Sections.managed_marker c a;
            Sections.install_files c a;
            Sections.install_command c a;
            Sections.project_files c a;
            Sections.run_command c a]
  /\ result (generate g c) w =
       Js.cat (Sections.heading c w :: Sections.base c id :: Sections.as_root c a)
       +:+ (Text.note c
              (Js.cat [Js.nl; "# It's good practice to run Docker images as a non-root user."; Js.nl;
                       "# This section creates a new user, sets it as the user for the image, and it's"; Js.nl;
                       "# home directory as the working directory."])
            +:+ Js.cat [Js.nl; "RUN useradd --create-home --uid 1001 -s /bin/bash dockteruser"; Js.nl;
                        "USER dockteruser"; Js.nl;
                        "WORKDIR /home/dockteruser"; Js.nl])
       +:+ Js.cat (Sections.as_user c a).
Proof.
  cbv zeta. intros Happ. split.
  - exact (ComposerFacts.generate_sections g c w Happ).
  - rewrite (ComposerFacts.generate_sections g c w Happ).
    fold Text.user. fold (Sections.privilege_drop c).
    unfold Sections.as_root, Sections.as_user.
    rewrite !cat_cons. change (Js.cat []) with EmptyString.
    now rewrite ?append_assoc, ?append_nil_r.
Qed.

Lemma sections_in_fixed_order_witness :
  result (generate Examples.selected false) Examples.project =
    Js.cat [Sections.heading false Examples.project;
            Sections.base false "ubuntu:16.04";
            Sections.environment false
              (result (consult Examples.selected "ubuntu:16.04") Examples.project);
            Sections.bootstrap false
              (result (consult Examples.selected "ubuntu:16.04") Examples.project);
            Sections.repository_add false
              (result (consult Examples.selected "ubuntu:16.04") Examples.project);
            Sections.key_registration false
              (result (consult Examples.selected "ubuntu:16.04") Examples.project);
            Sections.system_packages false
              (result (consult Examples.selected "ubuntu:16.04") Examples.project);
            Sections.ecosystem_bootstrap false
              (result (consult Examples.selected "ubuntu:16.04") Examples.project);
            Sections.privilege_drop false;
            Sections.managed_marker false
              (result (consult Examples.selected "ubuntu:16.04") Examples.project);
            Sections.install_files false
              (result (consult Examples.selected "ubuntu:16.04") Examples.project);
            Sections.install_command false
              (result (consult Examples.selected "ubuntu:16.04") Examples.project);
            Sections.project_files false
              (result (consult Examples.selected "ubuntu:16.04") Examples.project);
            Sections.run_command false
              (result (consult Examples.selected "ubuntu:16.04") Examples.project)].
Proof.
  exact (proj1 (sections_in_fixed_order Examples.selected false Examples.project
                  eq_refl)).
Defined.

(** ** What the composer hears from the adapter *)

Module ConsultFacts.

Lemma consult_aptRepos (g : Generator) (id : string) (w : World) :
  exists w', the_aptRepos (result (consult g id) w) = result (aptRepos g id) w'.
Proof.
  unfold consult, bind, ret, result.
  destruct (envVars g id w) as [ev w1].
  exists w1. destruct (aptRepos g id w1) as [ar w2].
  destruct (aptKeysCommand g id w2) as [ak w3].
  destruct (aptPackages g id w3) as [ap w4].
  destruct (stencilaInstall g id w4) as [si w5].
  destruct (installFiles g id w5) as [fi w6].
  destruct (installCommand g id w6) as [ic w7].
  destruct (projectFiles g id w7) as [pf w8].
  now destruct (runCommand g id w8) as [rc w9].
Qed.

Lemma consult_installCommand (g : Generator) (id : string) (w : World) :
  exists w',
    the_installCommand (result (consult g id) w) = result (installCommand g id) w'.
Proof.
  unfold consult, bind, ret, result.
  destruct (envVars g id w) as [ev w1].
  destruct (aptRepos g id w1) as [ar w2].
  destruct (aptKeysCommand g id w2) as [ak w3].
  destruct (aptPackages g id w3) as [ap w4].
  destruct (stencilaInstall g id w4) as [si w5].
  destruct (installFiles g id w5) as [fi w6].
  exists w6. destruct (installCommand g id w6) as [ic w7].
  destruct (projectFiles g id w7) as [pf w8].
  now destruct (runCommand g id w8) as [rc w9].
Qed.

End ConsultFacts.

(** ** The R adapter *)

Module RFacts.

Import RGenerator.

Lemma installCommand_mkdir (v : string) (w : World) :
  exists rest, installCommand v w = (Some ("mkdir ~/R" +:+ rest), w).
Proof.
  unfold installCommand, bind, ret, Doer.exists_.
  destruct (bool_decide (is_Some (folder w !! "install.R"))).
  - eexists. reflexivity.
  - destruct (bool_decide (is_Some (folder w !! "DESCRIPTION"))).
    + eexists. reflexivity.
    + destruct (bool_decide (is_Some (folder w !! ".DESCRIPTION"))).
      * eexists. reflexivity.
      * exists EmptyString. reflexivity.
Qed.

Lemma install_mkdir (rest : string) :
  Text.install (Some ("mkdir ~/R" +:+ rest))
  = Js.cat [Js.nl; "RUN mkdir ~/R"; rest; Js.nl].
Proof.
  reflexivity.
Qed.

End RFacts.

(** C9. The R adapter's [installCommand] is never absent: in every world and
    for every base identifier it answers a command that begins with
    [mkdir ~/R], whether or not [install.R], [DESCRIPTION] or [.DESCRIPTION]
    exist. So a generator with this [installCommand] whose [applies] answers
    true always writes the [# dockter] marker and, after it, the RUN step of
    the install command. *)
Theorem managed_install_always_emitted (g : Generator) (c : bool) (w : World) :
  installCommand g = RGenerator.installCommand ->
  result (applies g) (after (baseIdentifier g) (started c w)) = true ->
  (forall v w', exists rest,
      result (RGenerator.installCommand v) w' = Some ("mkdir ~/R" +:+ rest))
  /\ exists rest pre mid post,
       result (generate g c) w =
         pre +:+ Js.cat [Js.nl; "# dockter"; Js.nl]
         +:+ mid +:+ Js.cat [Js.nl; "RUN mkdir ~/R"; rest; Js.nl] +:+ post.
Proof.
  intros Hcmd Happ. split.
  - intros v w'. destruct (RFacts.installCommand_mkdir v w') as [rest Hrest].
    exists rest. unfold result. now rewrite Hrest.
  - pose proof (ComposerFacts.generate_sections g c w Happ) as Hout.
    cbv zeta in Hout. rewrite Hout. clear Hout.
    set (id := result (baseIdentifier g) _).
    set (a := result (consult g id) _).
    destruct (ConsultFacts.consult_installCommand g id
                (after (applies g) (after (baseIdentifier g) (started c w))))
      as [w' Hic].
    fold a in Hic. rewrite Hcmd in Hic.
    destruct (RFacts.installCommand_mkdir id w') as [rest Hrest].
    unfold result in Hic at 1. rewrite Hrest in Hic. cbn [fst] in Hic.
    assert (Htruthy : Js.truthy (the_installCommand a) = true)
      by (rewrite Hic; reflexivity).
    unfold Sections.managed_marker, Sections.install_command, Sections.optional.
    rewrite Htruthy, Hic, RFacts.install_mkdir.
    change Text.marker with (Js.cat [Js.nl; "# dockter"; Js.nl]).
    set (M := Js.cat [Js.nl; "# dockter"; Js.nl]).
    set (I := Js.cat [Js.nl; "RUN mkdir ~/R"; rest; Js.nl]).
    match goal with
    | |- context [Text.note c ?n +:+ M] => set (N1 := Text.note c n)
    end.
    match goal with
    | |- context [Text.note c ?n +:+ I] => set (N2 := Text.note c n)
    end.
    exists rest.
    exists (Js.cat [Sections.heading c w; Sections.base c id;
            Sections.environment c a; Sections.bootstrap c a;
            Sections.repository_add c a; Sections.key_registration c a;
            Sections.system_packages c a; Sections.ecosystem_bootstrap c a;
            Sections.privilege_drop c] +:+ N1).
    exists (Sections.install_files c a +:+ N2).
    exists (Sections.project_files c a +:+ Sections.run_command c a).
    fold M. fold I.
    rewrite !cat_cons. change (Js.cat []) with EmptyString.
    rewrite ?append_assoc, ?append_nil_r. reflexivity.
Qed.

Lemma managed_install_always_emitted_witness :
  (forall v w', exists rest,
      result (RGenerator.installCommand v) w' = Some ("mkdir ~/R" +:+ rest))
  /\ exists rest pre mid post,
       result (generate Examples.selected false) Examples.project =
         pre +:+ Js.cat [Js.nl; "# dockter"; Js.nl]
         +:+ mid +:+ Js.cat [Js.nl; "RUN mkdir ~/R"; rest; Js.nl] +:+ post.
Proof.
  exact (managed_install_always_emitted Examples.selected false Examples.project
           eq_refl eq_refl).
Defined.

(** With nothing to install from on disk, the pipeline still installs: the
    descriptor is synthesized before the install command is asked for. *)
Example install_step_without_install_files :
  the_installCommand (result (consult Examples.selected "ubuntu:16.04") Examples.project)
  = Some (Js.cat ["mkdir ~/R "; Js.bs; Js.nl; " && bash -c "; Js.dq;
                  "Rscript <(curl -sL https://unpkg.com/@stencila/dockter/src/install.R)";
                  Js.dq])
  /\ result (RGenerator.installCommand "ubuntu:16.04") Examples.project
     = Some "mkdir ~/R".
Proof. split; vm_compute; reflexivity. Qed.

Module LookupFacts.

Lemma lookup_unknown (version : string) :
  version <> "14.04" -> version <> "16.04" -> version <> "18.04" ->
  lookup !! version = None.
Proof.
  intros H14 H16 H18. unfold lookup.
  rewrite !lookup_insert_ne by (intro E; symmetry in E; contradiction). apply lookup_empty.
Qed.

(** A version that is neither a key of the table nor the name of an inherited
    member reads as [undefined]. *)
Lemma get_unknown (version : string) :
  version <> "14.04" -> version <> "16.04" -> version <> "18.04" ->
  Js.Object_prototype version = Js.Undefined ->
  Js.get lookup version = Js.Undefined.
Proof.
  intros H14 H16 H18 Hproto. unfold Js.get.
  now rewrite (lookup_unknown version H14 H16 H18).
Qed.

(** Whatever [baseVersionName] answers is written, as text, at the end of the
    repository line of the composition. *)
Lemma repository_line_written
    (this : RGenerator.Object) (g : Generator) (c : bool) (w : World) :
  aptRepos g = RGenerator.aptRepos this ->
  result (applies g) (after (baseIdentifier g) (started c w)) = true ->
  Js.occurs
    (Js.cat ["RUN apt-add-repository "; Js.dq;
             "deb https://mran.microsoft.com/snapshot/"; RGenerator.date this;
             "/bin/linux/ubuntu ";
             Js.show (baseVersionName (result (baseIdentifier g) (started c w)));
             "/"; Js.dq; Js.nl])
    (result (generate g c) w).
Proof.
  intros Hrepos Happ.
  pose proof (ComposerFacts.generate_sections g c w Happ) as Hout.
  cbv zeta in Hout. rewrite Hout. clear Hout.
  set (id := result (baseIdentifier g) _) in *.
  set (a := result (consult g id) _).
  destruct (ConsultFacts.consult_aptRepos g id
              (after (applies g) (after (baseIdentifier g) (started c w))))
    as [w' Har].
  fold a in Har. rewrite Hrepos in Har.
  unfold RGenerator.aptRepos, ret, result in Har. cbn [fst] in Har.
  set (codename := Js.show (baseVersionName id)) in *. clearbody codename.
  assert (Hsec : Js.occurs
     (Js.cat ["RUN apt-add-repository "; Js.dq;
              "deb https://mran.microsoft.com/snapshot/"; RGenerator.date this;
              "/bin/linux/ubuntu "; codename; "/"; Js.dq; Js.nl])
     (Sections.repository_add c a)).
  { unfold Sections.repository_add, Sections.optional. rewrite Har.
    cbn [nonempty]. apply occurs_after.
    unfold Text.repos. cbn [map Js.join].
    rewrite !cat_cons. change (Js.cat []) with EmptyString.
    rewrite ?append_assoc, ?append_nil_r.
    apply occurs_after.
    change ("RUN " +:+ "apt-add-repository " +:+ ?x)
      with ("RUN apt-add-repository " +:+ x).
    apply occurs_here. }
  rewrite !cat_cons. auto 12 with occurs.
Qed.

End LookupFacts.

(** C6, on the code. For the version [constructor], which is not a key of the
    table, [baseVersionName] does not answer [undefined]: the read on the
    plain object finds the member [constructor] that every object inherits,
    the function [Object]. The R adapter writes the text of that function
    into its repository line, and the composer passes the line on. *)
Theorem baseVersionName_inherited_member :
  lookup !! "constructor" = None
  /\ baseVersionName "ubuntu:constructor" = Js.Native "Object"
  /\ result (RGenerator.aptRepos (RGenerator.mkObject Examples.scenario "2018-10-05")
               "ubuntu:constructor") Examples.project
     = ["deb https://mran.microsoft.com/snapshot/2018-10-05/bin/linux/ubuntu function Object() { [native code] }/"]
  /\ result (baseIdentifier Examples.on_inherited_base) Examples.project
     = "ubuntu:constructor"
  /\ Js.occurs
       (Js.cat ["RUN apt-add-repository "; Js.dq;
                "deb https://mran.microsoft.com/snapshot/2018-10-05/bin/linux/ubuntu function Object() { [native code] }/";
                Js.dq; Js.nl])
       (result (generate Examples.on_inherited_base false) Examples.project).
Proof.
  split; [reflexivity|]. split; [reflexivity|].
  split; [vm_compute; reflexivity|]. split; [reflexivity|].
  exact (LookupFacts.repository_line_written
           (RGenerator.mkObject Examples.scenario "2018-10-05")
           Examples.on_inherited_base false Examples.project eq_refl eq_refl).
Qed.

(** On a base image of an unknown version that no object inherits, the
    repository line of the composed Dockerfile ends in [undefined/]. *)
Example unknown_base_repository_line :
  baseVersionName "ubuntu:20.04" = Js.Undefined /\
  baseVersionName "ubuntu" = Js.Undefined /\
  baseVersionName "ubuntu:16.04" = Js.Text "xenial" /\
  baseVersionName "ubuntu:toString" = Js.Native "toString" /\
  result (RGenerator.aptRepos (RGenerator.mkObject Examples.scenario "2018-10-05")
            "ubuntu:20.04") Examples.project
  = ["deb https://mran.microsoft.com/snapshot/2018-10-05/bin/linux/ubuntu undefined/"]
  /\ Js.occurs
       (Js.cat ["RUN apt-add-repository "; Js.dq;
                "deb https://mran.microsoft.com/snapshot/2018-10-05/bin/linux/ubuntu undefined/";
                Js.dq; Js.nl])
       (result (generate Examples.on_unknown_base false) Examples.project).
Proof.
  repeat split; try (vm_compute; reflexivity).
  exact (LookupFacts.repository_line_written
           (RGenerator.mkObject Examples.scenario "2018-10-05")
           Examples.on_unknown_base false Examples.project eq_refl eq_refl).
Qed.

Module RConsult.

Lemma installFiles_run (this : RGenerator.Object) (v : string) (w : World) :
  RGenerator.installFiles this v w =
  if result (Doer.exists_ "install.R") w then ([("install.R", "install.R")], w)
  else if result (Doer.exists_ "DESCRIPTION") w then ([("DESCRIPTION", "DESCRIPTION")], w)
  else ([(".DESCRIPTION", "DESCRIPTION")],
        after (Doer.write ".DESCRIPTION"
                 (RGenerator.description this (Js.toISOString (result now w))))
              (after now w)).
Proof.
  unfold RGenerator.installFiles, bind, ret, result, after, Doer.exists_, Doer.write, now.
  cbn [fst snd folder globbed clock reads VERSION].
  destruct (bool_decide (is_Some (folder w !! "install.R"))); [reflexivity|].
  destruct (bool_decide (is_Some (folder w !! "DESCRIPTION"))); reflexivity.
Qed.

Lemma installFiles_result (this : RGenerator.Object) (v : string) (w : World) :
  result (RGenerator.installFiles this v) w =
  if result (Doer.exists_ "install.R") w then [("install.R", "install.R")]
  else if result (Doer.exists_ "DESCRIPTION") w then [("DESCRIPTION", "DESCRIPTION")]
  else [(".DESCRIPTION", "DESCRIPTION")].
Proof.
  unfold result at 1. rewrite installFiles_run.
  destruct (result (Doer.exists_ "install.R") w); [reflexivity|].
  destruct (result (Doer.exists_ "DESCRIPTION") w); reflexivity.
Qed.

Lemma exists_after_write (p q content : string) (w : World) :
  p <> q ->
  result (Doer.exists_ q) (after (Doer.write p content) w)
  = result (Doer.exists_ q) w.
Proof.
  intros Hpq. unfold result, after, Doer.exists_, Doer.write. cbn [fst snd folder].
  now rewrite lookup_insert_ne.
Qed.

Lemma exists_written (p content : string) (w : World) :
  result (Doer.exists_ p) (after (Doer.write p content) w) = true.
Proof.
  unfold result, after, Doer.exists_, Doer.write. cbn [fst snd folder].
  rewrite lookup_insert_eq. now apply bool_decide_eq_true.
Qed.

Lemma exists_after_now (q : string) (w : World) :
  result (Doer.exists_ q) (after now w) = result (Doer.exists_ q) w.
Proof. reflexivity. Qed.

(** The install command the composer hears, asked after the install files. *)
Lemma installCommand_after_installFiles (this : RGenerator.Object) (v : string) (w : World) :
  result (RGenerator.installCommand v) (after (RGenerator.installFiles this v) w)
  = Some (if result (Doer.exists_ "install.R") w
          then Js.cat ["mkdir ~/R "; Js.bs; Js.nl; " && Rscript install.R"]
          else Js.cat ["mkdir ~/R "; Js.bs; Js.nl; " && bash -c "; Js.dq;
                       "Rscript <(curl -sL https://unpkg.com/@stencila/dockter/src/install.R)";
                       Js.dq]).
Proof.
  unfold after at 1. rewrite installFiles_run.
  destruct (result (Doer.exists_ "install.R") w) eqn:Hs; cbn [snd].
  - unfold RGenerator.installCommand, bind, ret, result in *.
    destruct (Doer.exists_ "install.R" w) as [s w'] eqn:E.
    cbn [fst] in Hs. subst s. reflexivity.
  - destruct (result (Doer.exists_ "DESCRIPTION") w) eqn:Hd; cbn [snd].
    + unfold RGenerator.installCommand, bind, ret, result in *.
      unfold Doer.exists_ in *. cbn [fst snd] in *. rewrite Hs, Hd. reflexivity.
    + set (w' := after (Doer.write _ _) _).
      assert (Hs' : result (Doer.exists_ "install.R") w' = false).
      { unfold w'. rewrite exists_after_write by discriminate. exact Hs. }
      assert (Hd' : result (Doer.exists_ "DESCRIPTION") w' = false).
      { unfold w'. rewrite exists_after_write by discriminate. exact Hd. }
      assert (Hg' : result (Doer.exists_ ".DESCRIPTION") w' = true)
        by apply exists_written.
      clearbody w'.
      unfold RGenerator.installCommand, bind, ret, result in *.
      unfold Doer.exists_ in *. cbn [fst snd] in *. rewrite Hs', Hd', Hg'. reflexivity.
Qed.

Lemma installFiles_world (this : RGenerator.Object) (v : string) (w : World) :
  globbed (after (RGenerator.installFiles this v) w) = globbed w.
Proof.
  unfold after. rewrite installFiles_run.
  destruct (result (Doer.exists_ "install.R") w); [reflexivity|].
  destruct (result (Doer.exists_ "DESCRIPTION") w); reflexivity.
Qed.

Lemma consult_R (this : RGenerator.Object) (a : M bool) (id : string) (w : World) :
  result (consult (with_applies a (RGenerator.methods this)) id) w =
  mkAnswers
    (result (RGenerator.envVars id) w)
    (result (RGenerator.aptRepos this id) w)
    (result (RGenerator.aptKeysCommand id) w)
    (result (RGenerator.aptPackages this id) w)
    (result (RGenerator.stencilaInstall id) w)
    (result (RGenerator.installFiles this id) w)
    (result (RGenerator.installCommand id) (after (RGenerator.installFiles this id) w))
    (map (fun file => (file, file)) (globbed w "**/*.R"))
    (result (RGenerator.runCommand id) w).
Proof.
  unfold consult, bind.
  cbn [with_applies RGenerator.methods envVars aptRepos aptKeysCommand aptPackages
       stencilaInstall installFiles installCommand projectFiles runCommand].
  pose proof (installFiles_world this id w) as Hglob.
  unfold RGenerator.envVars, RGenerator.aptRepos, RGenerator.aptKeysCommand,
    RGenerator.aptPackages, RGenerator.stencilaInstall, ret, result, after in *.
  cbv beta iota delta [fst snd] in *.
  destruct (RGenerator.installFiles this id w) as [fi w1].
  pose proof (RFacts.installCommand_mkdir id w1) as [rest Hic].
  rewrite Hic.
  unfold RGenerator.projectFiles, RGenerator.runCommand, Doer.glob, bind, ret.
  cbv beta iota. rewrite Hglob.
  destruct (globbed w "**/*.R"); reflexivity.
Qed.

(** What the composer hears from the R adapter depends on the world through
    the two files it tests and the R scripts it finds, and on nothing else. *)
Lemma consult_same_project (this : RGenerator.Object) (a : M bool) (id : string)
    (w1 w2 : World) :
  same_project w1 w2 ->
  result (consult (with_applies a (RGenerator.methods this)) id) w1
  = result (consult (with_applies a (RGenerator.methods this)) id) w2.
Proof.
  intros (Hscript & Hdesc & Hglob). rewrite !consult_R.
  rewrite !installCommand_after_installFiles.
  rewrite !installFiles_result.
  rewrite Hscript, Hdesc, Hglob.
  f_equal.
  unfold RGenerator.runCommand, Doer.glob, bind, ret, result. cbv beta iota.
  rewrite Hglob. now destruct (globbed w2 "**/*.R").
Qed.

End RConsult.

Module DeterminismFacts.

(** Without comments the composition of an R generator depends on the world
    through the project only: not on the clock, nor on what earlier
    compositions wrote. *)
Lemma generate_same_project (this : RGenerator.Object) (selects : bool)
    (w1 w2 : World) :
  same_project w1 w2 ->
  result (generate (with_applies (ret selects) (RGenerator.methods this)) false) w1
  = result (generate (with_applies (ret selects) (RGenerator.methods this)) false) w2.
Proof.
  intros Hsame.
  set (g := with_applies (ret selects) (RGenerator.methods this)).
  destruct selects.
  - pose proof (f_equal fst (ComposerFacts.generate_full g false w1 eq_refl)) as H1.
    pose proof (f_equal fst (ComposerFacts.generate_full g false w2 eq_refl)) as H2.
    cbv zeta in H1, H2. cbn [fst] in H1, H2.
    change (fst (generate g false w1) = fst (generate g false w2)).
    rewrite H1, H2.
    change (after (applies g) (after (baseIdentifier g) (started false w1))) with w1.
    change (after (applies g) (after (baseIdentifier g) (started false w2))) with w2.
    change (result (baseIdentifier g) (started false w1)) with "ubuntu:16.04".
    change (result (baseIdentifier g) (started false w2)) with "ubuntu:16.04".
    unfold g. now rewrite (RConsult.consult_same_project this _ _ w1 w2 Hsame).
  - pose proof (f_equal fst (ComposerFacts.generate_early g false w1 eq_refl)) as H1.
    pose proof (f_equal fst (ComposerFacts.generate_early g false w2 eq_refl)) as H2.
    cbv zeta in H1, H2. cbn [fst] in H1, H2.
    change (fst (generate g false w1) = fst (generate g false w2)).
    rewrite H1, H2. reflexivity.
Qed.

Lemma same_project_refl (w : World) : same_project w w.
Proof. now repeat split. Qed.

Lemma same_project_trans (w1 w2 w3 : World) :
  same_project w1 w2 -> same_project w2 w3 -> same_project w1 w3.
Proof.
  intros (H1 & H2 & H3) (H1' & H2' & H3').
  repeat split; etransitivity; eassumption.
Qed.

Lemma same_project_now (w : World) : same_project (after now w) w.
Proof. now repeat split. Qed.

Lemma same_project_write (p content : string) (w : World) :
  p <> "install.R" -> p <> "DESCRIPTION" ->
  same_project (after (Doer.write p content) w) w.
Proof.
  intros Hs Hd. repeat split; try (now apply RConsult.exists_after_write).
Qed.

Lemma same_project_installFiles (this : RGenerator.Object) (v : string) (w : World) :
  same_project (after (RGenerator.installFiles this v) w) w.
Proof.
  unfold after at 1. rewrite RConsult.installFiles_run.
  destruct (result (Doer.exists_ "install.R") w); [apply same_project_refl|].
  destruct (result (Doer.exists_ "DESCRIPTION") w); [apply same_project_refl|].
  cbn [snd]. eapply same_project_trans; [|apply same_project_now].
  now apply same_project_write.
Qed.

Lemma consult_world (this : RGenerator.Object) (a : M bool) (id : string) (w : World) :
  after (consult (with_applies a (RGenerator.methods this)) id) w
  = after (RGenerator.installFiles this id) w.
Proof.
  unfold consult, bind.
  cbn [with_applies RGenerator.methods envVars aptRepos aptKeysCommand aptPackages
       stencilaInstall installFiles installCommand projectFiles runCommand].
  unfold RGenerator.envVars, RGenerator.aptRepos, RGenerator.aptKeysCommand,
    RGenerator.aptPackages, RGenerator.stencilaInstall, ret, after.
  cbv beta iota delta [fst snd].
  destruct (RGenerator.installFiles this id w) as [fi w1].
  pose proof (RFacts.installCommand_mkdir id w1) as [rest Hic].
  rewrite Hic.
  unfold RGenerator.projectFiles, RGenerator.runCommand, Doer.glob, bind, ret.
  cbv beta iota.
  destruct (globbed w1 "**/*.R"); reflexivity.
Qed.

(** A composition leaves the project as the R generator sees it. *)
Lemma generate_keeps_project (this : RGenerator.Object) (selects c : bool) (w : World) :
  same_project
    (after (generate (with_applies (ret selects) (RGenerator.methods this)) c) w) w.
Proof.
  set (g := with_applies (ret selects) (RGenerator.methods this)).
  assert (Hstart : same_project (started c w) w)
    by (destruct c; [apply same_project_now | apply same_project_refl]).
  destruct selects.
  - pose proof (f_equal snd (ComposerFacts.generate_full g c w eq_refl)) as H.
    cbv zeta in H. cbn [snd] in H.
    change (snd (generate g c w)) with (after (generate g c) w) in H.
    rewrite H. clear H.
    eapply same_project_trans; [now apply same_project_write|].
    change (after (applies g) (after (baseIdentifier g) (started c w)))
      with (started c w).
    unfold g. rewrite consult_world.
    eapply same_project_trans; [apply same_project_installFiles | exact Hstart].
  - pose proof (f_equal snd (ComposerFacts.generate_early g c w eq_refl)) as H.
    cbv zeta in H. cbn [snd] in H.
    change (snd (generate g c w)) with (after (generate g c) w) in H.
    rewrite H. exact Hstart.
Qed.

End DeterminismFacts.

Module ConstructorFacts.

(** With a publication date the constructor reads no clock. *)
Lemma new_dated (environ : SoftwareEnvironment) (w : World) :
  Js.truthy (datePublished environ) = true ->
  RGenerator.new environ w
  = (RGenerator.mkObject environ (Js.interp (datePublished environ)), w).
Proof.
  intros Hdate. unfold RGenerator.new, bind, ret. now rewrite Hdate.
Qed.

(** Without one, the snapshot date is the day before the construction. *)
Lemma new_undated (environ : SoftwareEnvironment) (w : World) :
  Js.truthy (datePublished environ) = false ->
  RGenerator.new environ w
  = (RGenerator.mkObject environ
       (Js.substring0 10 (Js.toISOString (clock w (reads w) - 24 * 3600 * 1000))),
     after now w).
Proof.
  intros Hdate. unfold RGenerator.new, bind, ret. now rewrite Hdate.
Qed.

End ConstructorFacts.

(** C5, as the code has it. Composing without comments gives the same text
    in any two worlds that hold the same project, whatever their clocks read,
    and composing a second time after the first gives the same text again,
    when the same generator object composes both times, and also when a
    generator is constructed for each composition and the environment carries
    a publication date: the time of the composition appears in comment text
    only. (Without a publication date the repository line carries the day
    before the construction, read from the clock.) *)
Theorem composition_deterministic_given_date
    (this : RGenerator.Object) (environ : SoftwareEnvironment) (selects : bool)
    (w1 w2 : World) :
  same_project w1 w2 ->
  let g := with_applies (ret selects) (RGenerator.methods this) in
  (result (generate g false) w1 = result (generate g false) w2
   /\ result (generate g false) (after (generate g false) w1)
      = result (generate g false) w1)
  /\
  (Js.truthy (datePublished environ) = true ->
   result (compose environ selects false) w1
   = result (compose environ selects false) w2
   /\ result (compose environ selects false)
             (after (compose environ selects false) w1)
      = result (compose environ selects false) w1).
Proof.
  intros Hsame g. split; [split|].
  - now apply DeterminismFacts.generate_same_project.
  - apply DeterminismFacts.generate_same_project.
    apply DeterminismFacts.generate_keeps_project.
  - intros Hdate.
    assert (Hrun : forall w,
      compose environ selects false w
      = generate (with_applies (ret selects)
                    (RGenerator.methods
                       (RGenerator.mkObject environ (Js.interp (datePublished environ)))))
                 false w).
    { intros w. unfold compose, bind. now rewrite ConstructorFacts.new_dated. }
    unfold result, after. rewrite !Hrun. split.
    + now apply DeterminismFacts.generate_same_project.
    + apply DeterminismFacts.generate_same_project.
      apply DeterminismFacts.generate_keeps_project.
Qed.

Lemma composition_deterministic_given_date_witness :
  result (compose Examples.scenario true false) Examples.project
  = result (compose Examples.scenario true false) Examples.project_next_day
  /\ result (compose Examples.scenario true false)
            (after (compose Examples.scenario true false) Examples.project)
     = result (compose Examples.scenario true false) Examples.project.
Proof.
  apply (composition_deterministic_given_date
           (RGenerator.mkObject Examples.scenario "2018-10-05")
           Examples.scenario true Examples.project Examples.project_next_day).
  - repeat split.
  - reflexivity.
Defined.

(** C5, as stated, fails: the environment carries no publication date, the
    two worlds hold the same project and differ by one day on the clock, and
    the compositions without comments differ, in the repository line. *)
Lemma undated_composition_follows_the_clock :
  same_project Examples.project Examples.project_next_day
  /\ result (compose Examples.undated true false) Examples.project
     <> result (compose Examples.undated true false) Examples.project_next_day
  /\ RGenerator.date (result (RGenerator.new Examples.undated) Examples.project)
     = "2018-10-04"
  /\ RGenerator.date (result (RGenerator.new Examples.undated) Examples.project_next_day)
     = "2018-10-05".
Proof.
  split; [now repeat split|]. split.
  - apply String.eqb_neq. vm_compute. reflexivity.
  - split; vm_compute; reflexivity.
Qed.

(** ** Escaping in the ENV statement *)

Module EscapeFacts.

Lemma replace_first_quote (a rest : string) :
  Js.quote_free a ->
  Js.replace_first (Ascii.eqb "034"%char) (Js.bs +:+ Js.dq) (a +:+ Js.dq +:+ rest)
  = a +:+ Js.bs +:+ Js.dq +:+ rest.
Proof.
  induction a as [|c a IH]; intros Hfree.
  - reflexivity.
  - destruct Hfree as [Hc Hfree].
    change ((String c a) +:+ Js.dq +:+ rest) with (String c (a +:+ Js.dq +:+ rest)).
    cbn [Js.replace_first].
    destruct (Ascii.eqb "034"%char c) eqn:E.
    + apply Ascii.eqb_eq in E. now subst c.
    + now rewrite IH.
Qed.

(** The first double quote of a value is escaped with a backslash; what
    follows it is written as it is, double quotes included. *)
Lemma pair_escapes_first_quote (key a rest : string) :
  Js.quote_free a ->
  Text.pair (key, a +:+ Js.dq +:+ rest)
  = Js.cat [key; "="; Js.dq; a; Js.bs; Js.dq; rest; Js.dq].
Proof.
  intros Hfree. unfold Text.pair. cbn [fst snd].
  rewrite (replace_first_quote a rest Hfree).
  rewrite !cat_cons. now rewrite !append_assoc.
Qed.

End EscapeFacts.

(** C4, on the code. The value [say "hi"] holds two double quotes; the ENV
    statement escapes the first with a backslash and writes the second as it
    is, so the quoted assignment ends before the end of the value. *)
Theorem env_escapes_first_quote_only :
  result (generate Examples.quoting false) Examples.project =
    Js.cat ["FROM ubuntu:18.04"; Js.nl;
            Js.nl;
            "ENV GREETING="; Js.dq; "say "; Js.bs; Js.dq; "hi"; Js.dq; Js.dq; Js.nl;
            Js.nl;
            "RUN useradd --create-home --uid 1001 -s /bin/bash dockteruser"; Js.nl;
            "USER dockteruser"; Js.nl;
            "WORKDIR /home/dockteruser"; Js.nl].
Proof. vm_compute. reflexivity. Qed.

(** ** The run command, the install files and the top level of the forest *)

Module RunFacts.

Lemma includes_In (rfiles : list string) (x : string) :
  RGenerator.includes rfiles x = true <-> In x rfiles.
Proof.
  unfold RGenerator.includes. rewrite existsb_exists. split.
  - intros (y & Hy & Heq). apply String.eqb_eq in Heq. now subst y.
  - intros Hx. exists x. split; [assumption | apply String.eqb_refl].
Qed.

Lemma includes_not_In (rfiles : list string) (x : string) :
  ~ In x rfiles -> RGenerator.includes rfiles x = false.
Proof.
  intros Hx. destruct (RGenerator.includes rfiles x) eqn:E; [|reflexivity].
  now apply includes_In in E.
Qed.

End RunFacts.

(** C7. The R adapter's [runCommand] answers [Rscript main.R] when [main.R]
    is among the globbed R files, else [Rscript cmd.R] when [cmd.R] is among
    them, else [Rscript] on the first file of the listing, and no command
    when the glob finds no file. *)
Theorem runCommand_choice (v : string) (w : World) :
  let rfiles := globbed w "**/*.R" in
  (rfiles = [] -> result (RGenerator.runCommand v) w = None) /\
  (In "main.R" rfiles ->
   result (RGenerator.runCommand v) w = Some "Rscript main.R") /\
  (~ In "main.R" rfiles -> In "cmd.R" rfiles ->
   result (RGenerator.runCommand v) w = Some "Rscript cmd.R") /\
  (forall first rest,
     rfiles = first :: rest -> ~ In "main.R" rfiles -> ~ In "cmd.R" rfiles ->
     result (RGenerator.runCommand v) w = Some ("Rscript " +:+ first)).
Proof.
  cbv zeta. unfold RGenerator.runCommand, Doer.glob, bind, ret, result.
  cbv beta iota.
  destruct (globbed w "**/*.R") as [|first rest] eqn:Hglob.
  - repeat split; try reflexivity; try (now intros []); try discriminate.
    intros Hmain [].
  - cbn [fst]. repeat split.
    + discriminate.
    + intros Hmain. apply RunFacts.includes_In in Hmain. now rewrite Hmain.
    + intros Hmain Hcmd. apply RunFacts.includes_not_In in Hmain.
      apply RunFacts.includes_In in Hcmd. now rewrite Hmain, Hcmd.
    + intros first' rest' [= <- <-] Hmain Hcmd.
      apply RunFacts.includes_not_In in Hmain, Hcmd.
      rewrite Hmain, Hcmd. rewrite !cat_cons.
      change (Js.cat []) with EmptyString. now rewrite append_nil_r.
Qed.

Lemma runCommand_choice_witness :
  result (RGenerator.runCommand "ubuntu:16.04") Examples.project_with_descriptor
  = Some "Rscript cmd.R".
Proof.
  apply (runCommand_choice "ubuntu:16.04" Examples.project_with_descriptor).
  - intros [H|[H|[]]]; discriminate.
  - left. reflexivity.
Defined.

Example runCommand_examples :
  result (RGenerator.runCommand "ubuntu:16.04") Examples.project
  = Some "Rscript main.R"
  /\ result (RGenerator.runCommand "ubuntu:16.04") Examples.project_with_descriptor
     = Some "Rscript cmd.R".
Proof. split; reflexivity. Qed.

(** C8. [installFiles] takes the first of three: a user's own [install.R]
    when the folder has one, copied and nothing else; otherwise the folder's
    [DESCRIPTION]; otherwise a [.DESCRIPTION] synthesized from the
    environment's name and its R packages, written to the folder and copied
    into the image as [DESCRIPTION]. *)
Theorem installFiles_precedence (this : RGenerator.Object) (v : string) (w : World) :
  (result (Doer.exists_ "install.R") w = true ->
   RGenerator.installFiles this v w = ([("install.R", "install.R")], w))
  /\
  (result (Doer.exists_ "install.R") w = false ->
   result (Doer.exists_ "DESCRIPTION") w = true ->
   RGenerator.installFiles this v w = ([("DESCRIPTION", "DESCRIPTION")], w))
  /\
  (result (Doer.exists_ "install.R") w = false ->
   result (Doer.exists_ "DESCRIPTION") w = false ->
   result (RGenerator.installFiles this v) w = [(".DESCRIPTION", "DESCRIPTION")]
   /\ folder (after (RGenerator.installFiles this v) w)
      = <[".DESCRIPTION" :=
            RGenerator.description this (Js.toISOString (clock w (reads w)))]>
          (folder w)
   /\ RGenerator.description this (Js.toISOString (clock w (reads w)))
      = Js.cat ["Package: ";
                Js.replace_first RGenerator.not_alnum EmptyString
                  (Js.or_else (env_name (RGenerator.environ this)) "unnamed");
                Js.nl;
                "Version: 1.0.0"; Js.nl;
                "Date: "; RGenerator.date this; Js.nl;
                "Imports:"; Js.nl; "  ";
                Js.join (Js.cat [","; Js.nl; "  "])
                  (map (fun pkg => default EmptyString (name pkg))
                       (Doer.filterPackages (RGenerator.environ this) "R"));
                Js.nl;
                "Description: Generated by Dockter ";
                Js.toISOString (clock w (reads w)); "."; Js.nl;
                "  To stop Dockter generating this file and start editing it yourself, rename it to ";
                Js.dq; "DESCRIPTION"; Js.dq; "."; Js.nl]).
Proof.
  split; [|split].
  - intros Hs. now rewrite RConsult.installFiles_run, Hs.
  - intros Hs Hd. now rewrite RConsult.installFiles_run, Hs, Hd.
  - intros Hs Hd. split; [|split].
    + now rewrite RConsult.installFiles_result, Hs, Hd.
    + unfold after at 1. now rewrite RConsult.installFiles_run, Hs, Hd.
    + reflexivity.
Qed.

Lemma installFiles_precedence_witness :
  result (RGenerator.installFiles (RGenerator.mkObject Examples.undated "2018-10-04")
            "ubuntu:16.04") Examples.project
  = [(".DESCRIPTION", "DESCRIPTION")].
Proof.
  apply (installFiles_precedence (RGenerator.mkObject Examples.undated "2018-10-04")
           "ubuntu:16.04" Examples.project); reflexivity.
Defined.

Example installFiles_examples :
  result (RGenerator.installFiles (RGenerator.mkObject Examples.scenario "2018-10-05")
            "ubuntu:16.04") Examples.project_with_script
  = [("install.R", "install.R")]
  /\ result (RGenerator.installFiles (RGenerator.mkObject Examples.scenario "2018-10-05")
               "ubuntu:16.04") Examples.project_with_descriptor
     = [("DESCRIPTION", "DESCRIPTION")]
  /\ result (RGenerator.installFiles (RGenerator.mkObject Examples.scenario "2018-10-05")
               "ubuntu:16.04") Examples.project
     = [(".DESCRIPTION", "DESCRIPTION")]
  /\ folder (after (RGenerator.installFiles
                      (RGenerator.mkObject Examples.undated "2018-10-04") "ubuntu:16.04")
                   Examples.project) !! ".DESCRIPTION"
     = Some (Js.cat ["Package: myproj"; Js.nl;
                     "Version: 1.0.0"; Js.nl;
                     "Date: 2018-10-04"; Js.nl;
                     "Imports:"; Js.nl;
                     "  ggplot2"; Js.nl;
                     "Description: Generated by Dockter 2018-10-05T00:00:00.000Z."; Js.nl;
                     "  To stop Dockter generating this file and start editing it yourself, rename it to ";
                     Js.dq; "DESCRIPTION"; Js.dq; "."; Js.nl]).
Proof. repeat split; vm_compute; reflexivity. Qed.

Module TopLevelFacts.

Lemma find_all_app (pre post : list SoftwarePackage) (debpkgs : list string) :
  Walk.find_all (pre ++ post) debpkgs
  = Walk.find_all post (Walk.find_all pre debpkgs).
Proof. unfold Walk.find_all. apply fold_left_app. Qed.

Lemma native_is_not_R (pkg : SoftwarePackage) :
  platform_is "deb" pkg = true -> platform_is "R" pkg = false.
Proof.
  unfold platform_is. destruct (runtimePlatform pkg) as [t|]; [|discriminate].
  intros Hdeb. apply String.eqb_eq in Hdeb. now subst t.
Qed.

Lemma find_native (pkg : SoftwarePackage) (debpkgs : list string) :
  platform_is "deb" pkg = true -> Walk.find pkg debpkgs = debpkgs.
Proof.
  intros Hdeb. rewrite WalkFacts.find_unfold.
  now rewrite (native_is_not_R pkg Hdeb).
Qed.

Lemma find_all_native (pkgs : list SoftwarePackage) (debpkgs : list string) :
  Forall (fun pkg => platform_is "deb" pkg = true) pkgs ->
  Walk.find_all pkgs debpkgs = debpkgs.
Proof.
  intros Hall. revert debpkgs.
  induction Hall as [|pkg rest Hpkg _ IH]; intros acc; [reflexivity|].
  unfold Walk.find_all in *. cbn [fold_left]. rewrite (find_native pkg acc Hpkg).
  apply IH.
Qed.

End TopLevelFacts.

(** C10, as the code has it. A native-tagged (deb) package at the top level
    of the environment's requirements is not recorded by the walk: [find]
    leaves the list as it is, and [aptPackages] is what it is without that
    package. A name, that of the package included, is in [aptPackages]
    exactly when it is [r-base] or the name recorded for a native package
    reached through R packages among the other requirements; and an
    environment whose top-level requirements are all native-tagged gets
    [r-base] alone. *)
Theorem top_level_native_not_recorded
    (n d : option string) (pre post : list SoftwarePackage) (pkg : SoftwarePackage) :
  platform_is "deb" pkg = true ->
  (forall debpkgs, Walk.find pkg debpkgs = debpkgs)
  /\ Walk.aptPackages (mkEnvironment n d (Some (pre ++ pkg :: post)))
     = Walk.aptPackages (mkEnvironment n d (Some (pre ++ post)))
  /\ (forall x,
        In x (Walk.aptPackages (mkEnvironment n d (Some (pre ++ pkg :: post))))
        <-> x = "r-base"
            \/ In x (WalkSpec.native_names (mkEnvironment n d (Some (pre ++ post)))))
  /\ (Forall (fun other => platform_is "deb" other = true) (pre ++ post) ->
      Walk.aptPackages (mkEnvironment n d (Some (pre ++ pkg :: post))) = ["r-base"]).
Proof.
  intros Hdeb.
  assert (Hsame : Walk.aptPackages (mkEnvironment n d (Some (pre ++ pkg :: post)))
                  = Walk.aptPackages (mkEnvironment n d (Some (pre ++ post)))).
  { unfold Walk.aptPackages. cbn [env_softwareRequirements default from_option Datatypes.id].
    rewrite !TopLevelFacts.find_all_app. f_equal.
    unfold Walk.find_all at 1. cbn [fold_left].
    now rewrite (TopLevelFacts.find_native pkg _ Hdeb). }
  split; [|split; [|split]].
  - intros acc. now apply TopLevelFacts.find_native.
  - exact Hsame.
  - intros x. rewrite Hsame.
    unfold Walk.aptPackages. rewrite WalkFacts.find_all_forest.
    cbn [app]. fold (WalkSpec.native_names (mkEnvironment n d (Some (pre ++ post)))).
    rewrite in_app_iff. cbn [In]. split.
    + intros [Hin|[Hin|[]]]; [now right | now left].
    + intros [Hbase|Hin]; [right; now left | now left].
  - intros Hall. rewrite Hsame. unfold Walk.aptPackages.
    cbn [env_softwareRequirements default from_option Datatypes.id].
    now rewrite TopLevelFacts.find_all_native.
Qed.

Lemma top_level_native_not_recorded_witness :
  Walk.aptPackages
    (mkEnvironment None None
       (Some ([Examples.pkg "R" "A" [Examples.deb "B"]] ++ Examples.deb "G" :: [])))
  = Walk.aptPackages
      (mkEnvironment None None
         (Some ([Examples.pkg "R" "A" [Examples.deb "B"]] ++ [])))
  /\ ~ In "G"
       (Walk.aptPackages
          (mkEnvironment None None
             (Some ([Examples.pkg "R" "A" [Examples.deb "B"]] ++ Examples.deb "G" :: [])))).
Proof.
  destruct (top_level_native_not_recorded None None
              [Examples.pkg "R" "A" [Examples.deb "B"]] [] (Examples.deb "G")
              eq_refl) as (_ & Hsame & Hnames & _).
  split; [exact Hsame|].
  intros Hin. apply Hnames in Hin. destruct Hin as [Hbase|[Hin|[]]]; discriminate.
Defined.

(** C10, as stated, fails: the name of a native-tagged package at the top
    level is in [aptPackages] when a native package of the same name stands
    under an R package, and when the name is that of the base package. *)
Lemma top_level_native_name_present :
  (platform_is "deb" (Examples.deb "B") = true
   /\ In "B"
        (Walk.aptPackages
           (mkEnvironment None None
              (Some [Examples.deb "B"; Examples.pkg "R" "A" [Examples.deb "B"]]))))
  /\
  (platform_is "deb" (Examples.deb "r-base") = true
   /\ In "r-base"
        (Walk.aptPackages
           (mkEnvironment None None (Some [Examples.deb "r-base"])))).
Proof.
  split; split; try reflexivity.
  - left. reflexivity.
  - left. reflexivity.
Qed.

(** The top-level native package G is absent from the list, and B, a native
    child of the R package A, is present. *)
Example top_level_native_example :
  Walk.aptPackages
    (mkEnvironment None None
       (Some [Examples.deb "G"; Examples.pkg "R" "A" [Examples.deb "B"]]))
  = ["B"; "r-base"].
Proof. reflexivity. Qed.

(** * Further properties of the code *)

Module WalkMore.

Import Walk WalkSpec Notions.

Lemma forest_app (pre post : list SoftwarePackage) :
  forest (pre ++ post) = forest pre ++ forest post.
Proof. unfold forest. apply flat_map_app. Qed.

Lemma find_appends (pkg : SoftwarePackage) (debpkgs : list string) :
  find pkg debpkgs = debpkgs ++ find pkg [].
Proof.
  rewrite (WalkFacts.find_below pkg [] debpkgs eq_refl).
  now rewrite (WalkFacts.find_below pkg [] [] eq_refl).
Qed.

Lemma find_all_appends (pkgs : list SoftwarePackage) (debpkgs : list string) :
  find_all pkgs debpkgs = debpkgs ++ find_all pkgs [].
Proof. now rewrite (WalkFacts.find_all_forest pkgs debpkgs), (WalkFacts.find_all_forest pkgs []). Qed.

Lemma platform_prune (tag : string) (pkg : SoftwarePackage) :
  platform_is tag (prune pkg) = platform_is tag pkg.
Proof.
  destruct pkg as [n rp reqs]. unfold platform_is. cbn [prune].
  now destruct (match rp with Some t => (t =? "R")%string | None => false end).
Qed.

Lemma name_prune (pkg : SoftwarePackage) : name (prune pkg) = name pkg.
Proof.
  destruct pkg as [n rp reqs]. cbn [prune].
  now destruct (match rp with Some t => (t =? "R")%string | None => false end).
Qed.

Lemma children_prune (pkg : SoftwarePackage) :
  children (prune pkg)
  = if platform_is "R" pkg then map prune (children pkg) else [].
Proof.
  destruct pkg as [n rp reqs]. unfold platform_is, children. cbn [prune runtimePlatform].
  destruct (match rp with Some t => (t =? "R")%string | None => false end);
    [|reflexivity].
  now destruct reqs.
Qed.

Lemma find_prune (pkg : SoftwarePackage) :
  forall debpkgs, find (prune pkg) debpkgs = find pkg debpkgs.
Proof.
  induction pkg as [n rp reqs IH] using SoftwarePackage_forest_ind.
  intros acc. rewrite !WalkFacts.find_unfold, platform_prune, children_prune.
  destruct (platform_is "R" (mkPackage n rp reqs)); [|reflexivity].
  unfold children. cbn [softwareRequirements]. revert acc.
  induction IH as [|sub rest Hsub _ IHrest]; intros acc; [reflexivity|].
  cbn [map fold_left]. rewrite IHrest. f_equal.
  unfold visit. rewrite platform_prune, name_prune.
  destruct (platform_is "deb" sub); [reflexivity | apply Hsub].
Qed.

End WalkMore.

(** X1. [find] only appends to the list it is given: what was recorded before
    is kept, in order, and what a package adds does not depend on it. So the
    walk over a list of top-level requirements is the concatenation of the
    walks over its parts. *)
Theorem walk_appends (n d : option string) (pre post : list SoftwarePackage)
    (pkg : SoftwarePackage) (debpkgs : list string) :
  Walk.find pkg debpkgs = debpkgs ++ Walk.find pkg []
  /\ Walk.find_all (pre ++ post) debpkgs
     = debpkgs ++ Walk.find_all pre [] ++ Walk.find_all post []
  /\ Walk.aptPackages (mkEnvironment n d (Some (pre ++ post)))
     = Walk.find_all pre [] ++ Walk.find_all post [] ++ ["r-base"].
Proof.
  split; [apply WalkMore.find_appends|].
  assert (Hall : forall acc, Walk.find_all (pre ++ post) acc
                 = acc ++ Walk.find_all pre [] ++ Walk.find_all post []).
  { intros acc. rewrite TopLevelFacts.find_all_app.
    rewrite (WalkMore.find_all_appends post), (WalkMore.find_all_appends pre).
    now rewrite app_assoc. }
  split; [apply Hall|].
  unfold Walk.aptPackages. cbn [env_softwareRequirements default from_option Datatypes.id].
  rewrite Hall. cbn [app]. now rewrite app_assoc.
Qed.

(** X2. The walk never looks below a node that the R ecosystem does not own,
    a native package included: cutting away everything under such nodes,
    anywhere in the forest, changes nothing in [aptPackages]. *)
Theorem walk_ignores_foreign_subtrees (n d : option string)
    (pkgs : list SoftwarePackage) :
  Walk.aptPackages (mkEnvironment n d (Some (map Notions.prune pkgs)))
  = Walk.aptPackages (mkEnvironment n d (Some pkgs)).
Proof.
  unfold Walk.aptPackages. cbn [env_softwareRequirements default from_option Datatypes.id].
  f_equal. unfold Walk.find_all. generalize (@nil string).
  induction pkgs as [|pkg rest IH]; intros acc; [reflexivity|].
  cbn [map fold_left]. now rewrite WalkMore.find_prune, IH.
Qed.

(** A native package under a native package, and one under a Python package,
    are cut away, and [aptPackages] is as before. *)
Example walk_ignores_foreign_subtrees_example :
  map Notions.prune
    [Examples.pkg "R" "A"
       [mkPackage (Some "B") (Some "deb") (Some [Examples.deb "Z"]);
        Examples.pkg "Python" "E" [Examples.deb "F"]]]
  = [Examples.pkg "R" "A"
       [Examples.deb "B"; mkPackage (Some "E") (Some "Python") None]]
  /\ Walk.aptPackages
       (mkEnvironment None None
          (Some [Examples.pkg "R" "A"
                   [mkPackage (Some "B") (Some "deb") (Some [Examples.deb "Z"]);
                    Examples.pkg "Python" "E" [Examples.deb "F"]]]))
     = ["B"; "r-base"].
Proof. split; reflexivity. Qed.

Module IdentifierFacts.

Import Notions.

Lemma rev_app_acc (s : string) :
  forall acc, String.rev_app s acc = String.rev_app s EmptyString +:+ acc.
Proof.
  induction s as [|c s IH]; intros acc; [reflexivity|].
  cbn [String.rev_app]. rewrite (IH (String c acc)), (IH (String c EmptyString)).
  now rewrite append_assoc.
Qed.

Lemma rev_push (c : ascii) (cur x : string) :
  String.rev (String c cur) +:+ x = String.rev cur +:+ String c x.
Proof.
  unfold String.rev. cbn [String.rev_app].
  rewrite (rev_app_acc cur (String c EmptyString)). now rewrite append_assoc.
Qed.

(** The first piece of a split is the text before the first separator. *)
Lemma split_aux_head (s : string) :
  forall cur, exists others,
    Js.split_aux ":" cur s = (String.rev cur +:+ before_colon s) :: others.
Proof.
  induction s as [|c s IH]; intros cur; cbn [Js.split_aux before_colon].
  - exists []. now rewrite append_nil_r.
  - destruct (Ascii.eqb c ":") eqn:Hc.
    + eexists. now rewrite append_nil_r.
    + destruct (IH (String c cur)) as [others Hothers].
      exists others. now rewrite Hothers, rev_push.
Qed.

(** Past a first piece without a colon, the split goes on with the rest. *)
Lemma split_aux_colon (a rest : string) :
  colon_free a ->
  forall cur, exists first,
    Js.split_aux ":" cur (a +:+ ":" +:+ rest) = first :: Js.split ":" rest.
Proof.
  induction a as [|c a IH]; intros Hfree cur.
  - eexists. reflexivity.
  - destruct Hfree as [Hc Hfree].
    change (String c a +:+ ":" +:+ rest) with (String c (a +:+ ":" +:+ rest)).
    cbn [Js.split_aux]. rewrite Hc. apply (IH Hfree).
Qed.

Lemma split_colon_free (s : string) :
  colon_free s -> forall cur, Js.split_aux ":" cur s = [String.rev cur +:+ s].
Proof.
  induction s as [|c s IH]; intros Hfree cur; cbn [Js.split_aux].
  - now rewrite append_nil_r.
  - destruct Hfree as [Hc Hfree]. rewrite Hc, (IH Hfree). now rewrite rev_push.
Qed.

Lemma before_colon_free (s : string) : colon_free s -> before_colon s = s.
Proof.
  induction s as [|c s IH]; intros Hfree; [reflexivity|].
  destruct Hfree as [Hc Hfree]. cbn [before_colon]. rewrite Hc. now rewrite IH.
Qed.

Lemma before_colon_app (a rest : string) :
  before_colon (a +:+ ":" +:+ rest) = before_colon a.
Proof.
  induction a as [|c a IH]; [reflexivity|].
  change (String c a +:+ ":" +:+ rest) with (String c (a +:+ ":" +:+ rest)).
  cbn [before_colon]. destruct (Ascii.eqb c ":"); [reflexivity | now rewrite IH].
Qed.

(** The version [baseVersionName] looks up: the text between the first and
    the second colon of the identifier. *)
Lemma baseVersionName_after_colon (a rest : string) :
  colon_free a ->
  baseVersionName (a +:+ ":" +:+ rest) = Js.get lookup (before_colon rest).
Proof.
  intros Hfree. unfold baseVersionName, Js.split.
  destruct (split_aux_colon a rest Hfree EmptyString) as [first Hsplit].
  rewrite Hsplit. unfold Js.split.
  destruct (split_aux_head rest EmptyString) as [others Hhead].
  rewrite Hhead. reflexivity.
Qed.

Lemma baseVersionName_no_colon (s : string) :
  colon_free s -> baseVersionName s = Js.Undefined.
Proof.
  intros Hfree. unfold baseVersionName, Js.split.
  now rewrite (split_colon_free s Hfree).
Qed.

Lemma baseIdentifier_on_base (n v : string) (g : Generator) (w : World) :
  result (baseIdentifier (on_base n v g)) w
  = if String.eqb v EmptyString then n else n +:+ ":" +:+ v.
Proof.
  unfold baseIdentifier, on_base, bind, ret, result. cbn [baseVersion baseName fst].
  destruct (String.eqb_spec v EmptyString) as [->|_];
    rewrite !cat_cons; change (Js.cat []) with EmptyString;
    now rewrite ?append_nil_r.
Qed.

End IdentifierFacts.

(** X3. For a base name without a colon, [baseVersionName] of the identifier
    that [baseIdentifier] builds is the codename of the base version (of its
    text before a colon, should it have one): the two functions agree on
    where the version is, also when the version is empty and the identifier
    has no colon at all. *)
Theorem codename_of_own_identifier (n v : string) (g : Generator) (w : World) :
  Notions.colon_free n ->
  baseVersionName (result (baseIdentifier (Notions.on_base n v g)) w)
  = Js.get lookup (Notions.before_colon v)
  /\ (Notions.colon_free v ->
      baseVersionName (result (baseIdentifier (Notions.on_base n v g)) w)
      = Js.get lookup v).
Proof.
  intros Hn.
  assert (Hname : baseVersionName (result (baseIdentifier (Notions.on_base n v g)) w)
                  = Js.get lookup (Notions.before_colon v)).
  { rewrite IdentifierFacts.baseIdentifier_on_base.
    destruct (String.eqb_spec v EmptyString) as [->|_].
    - now rewrite IdentifierFacts.baseVersionName_no_colon.
    - now apply IdentifierFacts.baseVersionName_after_colon. }
  split; [exact Hname|].
  intros Hv. now rewrite Hname, IdentifierFacts.before_colon_free.
Qed.

Lemma codename_of_own_identifier_witness :
  baseVersionName
    (result (baseIdentifier (Notions.on_base "ubuntu" "14.04" Generator_base))
       Examples.project)
  = Js.get lookup "14.04".
Proof.
  apply (codename_of_own_identifier "ubuntu" "14.04" Generator_base Examples.project).
  - repeat split.
  - repeat split.
Defined.

(** X4. When the base name holds a colon (a registry with a port), the
    version that [baseVersionName] looks up is taken from the name, between
    its first and its second colon, and the base version is ignored. *)
Theorem codename_with_colon_in_name (host tail v : string) (g : Generator) (w : World) :
  Notions.colon_free host ->
  baseVersionName
    (result (baseIdentifier (Notions.on_base (host +:+ ":" +:+ tail) v g)) w)
  = Js.get lookup (Notions.before_colon tail).
Proof.
  intros Hhost. rewrite IdentifierFacts.baseIdentifier_on_base.
  destruct (String.eqb v EmptyString).
  - now apply IdentifierFacts.baseVersionName_after_colon.
  - rewrite append_assoc.
    change ((":" +:+ tail) +:+ ":" +:+ v) with (":" +:+ (tail +:+ ":" +:+ v)).
    rewrite (IdentifierFacts.baseVersionName_after_colon host _ Hhost).
    now rewrite IdentifierFacts.before_colon_app.
Qed.

Lemma codename_with_colon_in_name_witness :
  baseVersionName
    (result (baseIdentifier
               (Notions.on_base ("localhost" +:+ ":" +:+ "5000/ubuntu") "18.04"
                  Generator_base))
       Examples.project)
  = Js.get lookup (Notions.before_colon "5000/ubuntu").
Proof.
  apply (codename_with_colon_in_name "localhost" "5000/ubuntu" "18.04"
           Generator_base Examples.project).
  repeat split.
Defined.

(** The known version 18.04 behind a registry with a port has no codename. *)
Example codename_behind_registry_port :
  result (baseIdentifier (Notions.on_base "localhost:5000/ubuntu" "18.04" Generator_base))
    Examples.project
  = "localhost:5000/ubuntu:18.04"
  /\ baseVersionName "localhost:5000/ubuntu:18.04" = Js.Undefined.
Proof. split; vm_compute; reflexivity. Qed.

(** X5. When [applies] answers false [generate] returns before it writes:
    the world it leaves is the one the [applies] call left, so a
    [.Dockerfile] already in the folder stays as it is, and for a generator
    whose [baseName], [baseVersion] and [applies] only answer, the folder is
    untouched. *)
Theorem early_return_writes_nothing (g : Generator) (c : bool) (w : World) :
  result (applies g) (after (baseIdentifier g) (started c w)) = false ->
  after (generate g c) w = after (applies g) (after (baseIdentifier g) (started c w))
  /\ (forall n v, baseName g = ret n -> baseVersion g = ret v -> applies g = ret false ->
      folder (after (generate g c) w) = folder w).
Proof.
  intros Happ.
  pose proof (f_equal snd (ComposerFacts.generate_early g c w Happ)) as Hrun.
  cbv zeta in Hrun. cbn [snd] in Hrun.
  change (snd (generate g c w)) with (after (generate g c) w) in Hrun.
  split; [exact Hrun|].
  intros n v Hn Hv Ha. rewrite Hrun.
  unfold baseIdentifier. rewrite Hn, Hv, Ha.
  unfold after, bind, ret, started, now. now destruct c.
Qed.

Lemma early_return_writes_nothing_witness :
  folder (after (generate
                   (RGenerator.methods (RGenerator.mkObject Examples.undated "2018-10-04"))
                   true) Examples.project_with_script)
  = folder Examples.project_with_script.
Proof.
  apply (proj2 (early_return_writes_nothing
                  (RGenerator.methods (RGenerator.mkObject Examples.undated "2018-10-04"))
                  true Examples.project_with_script eq_refl)
           "ubuntu" "16.04"); reflexivity.
Defined.

Module SectionFacts.

Import Sections.

Lemma optional_absent (c : bool) (comment text : string) :
  optional c false comment text = EmptyString.
Proof. reflexivity. Qed.

Lemma optional_present (c : bool) (comment text : string) :
  optional c true comment text = Text.note c comment +:+ text.
Proof. reflexivity. Qed.

End SectionFacts.

(** X6. An adapter that applies and answers nothing (every list empty, every
    command absent or the empty string) gets the base-image line and the
    non-root user block, and no other instruction: no ENV, RUN, COPY or CMD
    with nothing after it. *)
Theorem nothing_to_add (g : Generator) (c : bool) (w : World) :
  let w1 := started c w in
  let id := result (baseIdentifier g) w1 in
  let a := result (consult g id) (after (applies g) (after (baseIdentifier g) w1)) in
  result (applies g) (after (baseIdentifier g) w1) = true ->
  the_envVars a = [] -> the_aptRepos a = [] -> the_aptPackages a = [] ->
  the_installFiles a = [] -> the_projectFiles a = [] ->
  Js.truthy (the_aptKeysCommand a) = false ->
  Js.truthy (the_stencilaInstall a) = false ->
  Js.truthy (the_installCommand a) = false ->
  Js.truthy (the_runCommand a) = false ->
  result (generate g c) w
  = Sections.heading c w +:+ Sections.base c id +:+ Sections.privilege_drop c.
Proof.
  cbv zeta. intros Happ He Hr Hp Hf Hj Hk Hs Hi Hc.
  rewrite (ComposerFacts.generate_sections g c w Happ).
  unfold Sections.environment, Sections.bootstrap, Sections.repository_add,
    Sections.key_registration, Sections.system_packages,
    Sections.ecosystem_bootstrap, Sections.managed_marker, Sections.install_files,
    Sections.install_command, Sections.project_files, Sections.run_command.
  rewrite He, Hr, Hp, Hf, Hj, Hk, Hs, Hi, Hc. cbn [nonempty orb].
  rewrite !SectionFacts.optional_absent.
  rewrite !cat_cons. change (Js.cat []) with EmptyString.
  cbn [String.append]. now rewrite ?append_nil_r.
Qed.

Lemma nothing_to_add_witness :
  result (generate (with_applies (ret true) Generator_base) false) Examples.project
  = Sections.heading false Examples.project
    +:+ Sections.base false "ubuntu:18.04" +:+ Sections.privilege_drop false.
Proof.
  exact (nothing_to_add (with_applies (ret true) Generator_base) false Examples.project
           eq_refl eq_refl eq_refl eq_refl eq_refl eq_refl
           eq_refl eq_refl eq_refl eq_refl).
Defined.

(** X7. Whenever a repository is added or a key is registered, the tools for
    it have been installed by an earlier RUN step: the bootstrap text comes
    before the [apt-add-repository] statement and before the [apt-key]
    statement. A key command without any repository gets the bootstrap too. *)
Theorem bootstrap_comes_first (g : Generator) (c : bool) (w : World) :
  let w1 := started c w in
  let id := result (baseIdentifier g) w1 in
  let a := result (consult g id) (after (applies g) (after (baseIdentifier g) w1)) in
  result (applies g) (after (baseIdentifier g) w1) = true ->
  (the_aptRepos a <> [] ->
   exists pre mid post,
     result (generate g c) w
     = pre +:+ Text.bootstrap +:+ mid +:+ Text.repos (the_aptRepos a) +:+ post)
  /\
  (Js.truthy (the_aptKeysCommand a) = true ->
   exists pre mid post,
     result (generate g c) w
     = pre +:+ Text.bootstrap +:+ mid +:+ Text.keys (the_aptKeysCommand a) +:+ post).
Proof.
  cbv zeta. intros Happ.
  rewrite (ComposerFacts.generate_sections g c w Happ).
  set (id := result (baseIdentifier g) _).
  set (a := result (consult g id) _).
  set (before := Sections.heading c w +:+ Sections.base c id +:+ Sections.environment c a).
  set (rest := Js.cat [Sections.system_packages c a; Sections.ecosystem_bootstrap c a;
                       Sections.privilege_drop c; Sections.managed_marker c a;
                       Sections.install_files c a; Sections.install_command c a;
                       Sections.project_files c a; Sections.run_command c a]).
  assert (Hout :
    Js.cat [Sections.heading c w; Sections.base c id; Sections.environment c a;
            Sections.bootstrap c a; Sections.repository_add c a;
            Sections.key_registration c a; Sections.system_packages c a;
            Sections.ecosystem_bootstrap c a; Sections.privilege_drop c;
            Sections.managed_marker c a; Sections.install_files c a;
            Sections.install_command c a; Sections.project_files c a;
            Sections.run_command c a]
    = before +:+ Sections.bootstrap c a +:+ Sections.repository_add c a
      +:+ Sections.key_registration c a +:+ rest).
  { unfold before, rest. rewrite !cat_cons. now rewrite ?append_assoc. }
  rewrite Hout. clear Hout. clearbody before rest.
  unfold Sections.bootstrap, Sections.repository_add, Sections.key_registration.
  split.
  - intros Hrepos.
    assert (Hne : nonempty (the_aptRepos a) = true)
      by (destruct (the_aptRepos a); [contradiction | reflexivity]).
    rewrite Hne. cbn [orb]. rewrite !SectionFacts.optional_present.
    match goal with
    | |- context [Text.note c ?n1 +:+ Text.bootstrap] =>
        match goal with
        | |- context [Text.note c ?n2 +:+ Text.repos _] =>
            exists (before +:+ Text.note c n1), (Text.note c n2),
                   (Sections.optional c (Js.truthy (the_aptKeysCommand a)) EmptyString
                      (Text.keys (the_aptKeysCommand a)) +:+ rest)
        end
    end.
    now rewrite ?append_assoc.
  - intros Hkey. rewrite Hkey, orb_true_r. rewrite !SectionFacts.optional_present.
    match goal with
    | |- context [Text.note c ?n1 +:+ Text.bootstrap] =>
        match goal with
        | |- context [Sections.optional c ?b ?n2 (Text.repos ?r)] =>
            exists (before +:+ Text.note c n1),
                   (Sections.optional c b n2 (Text.repos r) +:+ Text.note c EmptyString),
                   rest
        end
    end.
    now rewrite ?append_assoc.
Qed.

Lemma bootstrap_comes_first_witness :
  exists pre mid post,
    result (generate Examples.selected false) Examples.project
    = pre +:+ Text.bootstrap +:+ mid
      +:+ Text.keys
            (the_aptKeysCommand
               (result (consult Examples.selected "ubuntu:16.04") Examples.project))
      +:+ post.
Proof.
  exact (proj2 (bootstrap_comes_first Examples.selected false Examples.project eq_refl)
           eq_refl).
Defined.

(** X8. In a composition the R generator's install files and install command
    agree: with an [install.R] in the folder that script is copied and run;
    without one a descriptor is copied as [DESCRIPTION] (the folder's own, or
    the one just synthesized) and the remote installer for descriptors is
    run. The bare [mkdir ~/R] is never the install command of a composition,
    because [installFiles] is asked first. *)
Theorem install_files_and_command_agree
    (this : RGenerator.Object) (a : M bool) (id : string) (w : World) :
  let ans := result (consult (with_applies a (RGenerator.methods this)) id) w in
  (result (Doer.exists_ "install.R") w = true ->
   the_installFiles ans = [("install.R", "install.R")]
   /\ the_installCommand ans
      = Some (Js.cat ["mkdir ~/R "; Js.bs; Js.nl; " && Rscript install.R"]))
  /\
  (result (Doer.exists_ "install.R") w = false ->
   (exists src, the_installFiles ans = [(src, "DESCRIPTION")])
   /\ the_installCommand ans
      = Some (Js.cat ["mkdir ~/R "; Js.bs; Js.nl; " && bash -c "; Js.dq;
                      "Rscript <(curl -sL https://unpkg.com/@stencila/dockter/src/install.R)";
                      Js.dq]))
  /\ the_installCommand ans <> Some "mkdir ~/R".
Proof.
  cbv zeta. rewrite RConsult.consult_R.
  cbn [the_installFiles the_installCommand].
  rewrite RConsult.installCommand_after_installFiles, RConsult.installFiles_result.
  destruct (result (Doer.exists_ "install.R") w).
  - repeat split; try discriminate.
  - destruct (result (Doer.exists_ "DESCRIPTION") w);
      repeat split; try discriminate; eexists; reflexivity.
Qed.

Lemma install_files_and_command_agree_witness :
  (exists src,
     the_installFiles
       (result (consult Examples.selected "ubuntu:16.04") Examples.project_with_descriptor)
     = [(src, "DESCRIPTION")])
  /\ the_installCommand
       (result (consult Examples.selected "ubuntu:16.04") Examples.project_with_descriptor)
     = Some (Js.cat ["mkdir ~/R "; Js.bs; Js.nl; " && bash -c "; Js.dq;
                     "Rscript <(curl -sL https://unpkg.com/@stencila/dockter/src/install.R)";
                     Js.dq]).
Proof.
  exact (proj1 (proj2 (install_files_and_command_agree
                         (RGenerator.mkObject Examples.scenario "2018-10-05")
                         (ret true) "ubuntu:16.04" Examples.project_with_descriptor))
           eq_refl).
Defined.

(** X9. The script the R generator runs is always one of the files it
    copies: [runCommand] answers [Rscript s] for an [s] that [projectFiles]
    stages under the same path, and it answers no command exactly when there
    is no project file. *)
Theorem run_script_is_staged (v v' : string) (w : World) :
  (result (RGenerator.projectFiles v') w = [] ->
   result (RGenerator.runCommand v) w = None)
  /\
  (result (RGenerator.projectFiles v') w <> [] ->
   exists script,
     result (RGenerator.runCommand v) w = Some ("Rscript " +:+ script)
     /\ In (script, script) (result (RGenerator.projectFiles v') w)).
Proof.
  unfold RGenerator.projectFiles, RGenerator.runCommand, Doer.glob, bind, ret, result.
  cbv beta iota. cbn [fst].
  destruct (globbed w "**/*.R") as [|first rest] eqn:Hglob; cbn [fst].
  - split; [reflexivity | now intros []].
  - split; [discriminate|]. intros _.
    assert (Hstaged : forall s, In s (first :: rest) ->
              In (s, s) (map (fun file => (file, file)) (first :: rest))).
    { intros s Hs. apply in_map_iff. now exists s. }
    destruct (RGenerator.includes (first :: rest) "main.R") eqn:Hmain.
    + exists "main.R". split; [reflexivity|].
      apply Hstaged. now apply RunFacts.includes_In.
    + destruct (RGenerator.includes (first :: rest) "cmd.R") eqn:Hcmd.
      * exists "cmd.R". split; [reflexivity|].
        apply Hstaged. now apply RunFacts.includes_In.
      * exists first. split.
        -- rewrite !cat_cons. change (Js.cat []) with EmptyString.
           now rewrite append_nil_r.
        -- apply Hstaged. now left.
Qed.

Lemma run_script_is_staged_witness :
  exists script,
    result (RGenerator.runCommand "ubuntu:16.04") Examples.project_with_descriptor
    = Some ("Rscript " +:+ script)
    /\ In (script, script)
          (result (RGenerator.projectFiles "ubuntu:16.04") Examples.project_with_descriptor).
Proof.
  apply (run_script_is_staged "ubuntu:16.04" "ubuntu:16.04"
           Examples.project_with_descriptor).
  discriminate.
Defined.

Module ReplaceFacts.

Import Notions.

Lemma replace_first_none (p : ascii -> bool) (rep s : string) :
  none_of p s -> Js.replace_first p rep s = s.
Proof.
  induction s as [|c s IH]; intros Hnone; [reflexivity|].
  destruct Hnone as [Hc Hnone]. cbn [Js.replace_first]. rewrite Hc.
  now rewrite IH.
Qed.

Lemma replace_first_at (p : ascii -> bool) (rep a : string) (c : ascii) (b : string) :
  none_of p a -> p c = true ->
  Js.replace_first p rep (a +:+ String c b) = a +:+ rep +:+ b.
Proof.
  induction a as [|x a IH]; intros Hnone Hc.
  - change (EmptyString +:+ String c b) with (String c b).
    cbn [Js.replace_first]. now rewrite Hc.
  - destruct Hnone as [Hx Hnone].
    change (String x a +:+ String c b) with (String x (a +:+ String c b)).
    cbn [Js.replace_first]. rewrite Hx. now rewrite IH.
Qed.

Lemma quote_free_none (s : string) :
  Js.quote_free s -> none_of (Ascii.eqb "034"%char) s.
Proof.
  induction s as [|c s IH]; intros Hfree; [exact I|].
  destruct Hfree as [Hc Hfree]. split; [|now apply IH].
  apply Ascii.eqb_neq. congruence.
Qed.

Lemma or_else_nonempty (a : string) (c : ascii) (b d : string) :
  Js.or_else (Some (a +:+ String c b)) d = a +:+ String c b.
Proof. now destruct a. Qed.

End ReplaceFacts.

(** X12. The package name of the synthesized descriptor is the environment's
    name with its first character outside [a-zA-Z0-9] removed, and only that
    one: what follows it is kept as it is, further such characters included.
    A name made of letters and digits is kept, and an absent or empty name
    becomes [unnamed]. *)
Theorem descriptor_package_name
    (environ : SoftwareEnvironment) (date stamp : string) :
  (forall a c b,
     env_name environ = Some (a +:+ String c b) ->
     Notions.none_of RGenerator.not_alnum a -> RGenerator.not_alnum c = true ->
     exists rest,
       RGenerator.description (RGenerator.mkObject environ date) stamp
       = "Package: " +:+ a +:+ b +:+ Js.nl +:+ rest)
  /\
  (forall c s,
     env_name environ = Some (String c s) ->
     Notions.none_of RGenerator.not_alnum (String c s) ->
     exists rest,
       RGenerator.description (RGenerator.mkObject environ date) stamp
       = "Package: " +:+ String c s +:+ Js.nl +:+ rest)
  /\
  (env_name environ = None \/ env_name environ = Some EmptyString ->
   exists rest,
     RGenerator.description (RGenerator.mkObject environ date) stamp
     = "Package: unnamed" +:+ Js.nl +:+ rest).
Proof.
  unfold RGenerator.description. cbn [RGenerator.environ RGenerator.date].
  split; [|split].
  - intros a c b Hname Ha Hc. rewrite Hname, ReplaceFacts.or_else_nonempty.
    rewrite (ReplaceFacts.replace_first_at _ _ a c b Ha Hc).
    change (EmptyString +:+ b) with b.
    do 3 rewrite cat_cons.
    match goal with
    | |- exists rest, _ +:+ _ +:+ _ +:+ ?tail = _ => exists tail
    end.
    now rewrite append_assoc.
  - intros c s Hname Hs. rewrite Hname. cbn [Js.or_else].
    rewrite (ReplaceFacts.replace_first_none _ _ _ Hs).
    do 3 rewrite cat_cons.
    match goal with
    | |- exists rest, _ +:+ _ +:+ _ +:+ ?tail = _ => exists tail
    end.
    reflexivity.
  - intros [Hname|Hname]; rewrite Hname; cbn [Js.or_else];
      do 3 rewrite cat_cons;
      match goal with
      | |- exists rest, _ +:+ _ +:+ _ +:+ ?tail = _ => exists tail
      end;
      reflexivity.
Qed.

Lemma descriptor_package_name_witness :
  exists rest,
    RGenerator.description
      (RGenerator.mkObject (mkEnvironment (Some "my proj!") None None) "2018-10-04")
      "2018-10-05T00:00:00.000Z"
    = "Package: " +:+ "my" +:+ "proj!" +:+ Js.nl +:+ rest.
Proof.
  apply (proj1 (descriptor_package_name (mkEnvironment (Some "my proj!") None None)
                  "2018-10-04" "2018-10-05T00:00:00.000Z")
           "my" " "%char "proj!").
  - reflexivity.
  - repeat split.
  - reflexivity.
Defined.

(** X13. In the ENV statement a value without a double quote is written
    between double quotes as it is; in a value with double quotes the first
    one gets a backslash and everything after it is written as it is. *)
Theorem env_value_escaping (key : string) :
  (forall value,
     Js.quote_free value ->
     Text.pair (key, value) = Js.cat [key; "="; Js.dq; value; Js.dq])
  /\
  (forall a rest,
     Js.quote_free a ->
     Text.pair (key, a +:+ Js.dq +:+ rest)
     = Js.cat [key; "="; Js.dq; a; Js.bs; Js.dq; rest; Js.dq]).
Proof.
  split.
  - intros value Hfree. unfold Text.pair. cbn [fst snd].
    now rewrite (ReplaceFacts.replace_first_none _ _ _
                   (ReplaceFacts.quote_free_none value Hfree)).
  - intros a rest Hfree. unfold Text.pair. cbn [fst snd].
    rewrite (EscapeFacts.replace_first_quote a rest Hfree).
    rewrite !cat_cons. now rewrite !append_assoc.
Qed.

Lemma env_value_escaping_witness :
  Text.pair ("R_LIBS_USER", "~/R") = Js.cat ["R_LIBS_USER"; "="; Js.dq; "~/R"; Js.dq].
Proof.
  apply (proj1 (env_value_escaping "R_LIBS_USER") "~/R").
  repeat split; discriminate.
Defined.

Module ClockFacts.

Import Notions.

Lemma length_app (s t : string) :
  String.length (s +:+ t) = String.length s + String.length t.
Proof.
  induction s as [|c s IH]; [reflexivity|].
  change (String c s +:+ t) with (String c (s +:+ t)).
  cbn [String.length]. now rewrite IH.
Qed.

Lemma digits_length (width : nat) :
  forall n acc, String.length (Js.digits width n acc) = width + String.length acc.
Proof.
  induction width as [|k IH]; intros n acc; [reflexivity|].
  cbn [Js.digits]. rewrite IH. cbn [String.length]. lia.
Qed.

(** The first characters of a string do not depend on what comes after them. *)
Lemma substring0_app (n : nat) :
  forall a b, n <= String.length a ->
    Js.substring0 n (a +:+ b) = Js.substring0 n a.
Proof.
  unfold Js.substring0.
  induction n as [|k IH]; intros [|c a] b Hlen; cbn [String.length] in Hlen;
    try lia.
  - now destruct b.
  - reflexivity.
  - change (String c a +:+ b) with (String c (a +:+ b)).
    cbn [String.substring]. rewrite IH by lia. reflexivity.
Qed.

(** The date part of [toISOString] is that of the day. *)
Lemma date_of_day (t1 t2 : Z) :
  (t1 / day = t2 / day)%Z ->
  Js.substring0 10 (Js.toISOString t1) = Js.substring0 10 (Js.toISOString t2).
Proof.
  unfold day. intros Hday. unfold Js.toISOString. rewrite Hday.
  destruct (Js.civil_from_days (t2 / 86400000)) as [[y m] d].
  set (year := if ((0 <=? y)%Z && (y <=? 9999)%Z) then _ else _).
  assert (Hyear : 4 <= String.length year).
  { unfold year. destruct ((0 <=? y)%Z && (y <=? 9999)%Z).
    - rewrite digits_length. lia.
    - rewrite length_app, digits_length. lia. }
  clearbody year.
  set (prefix := year +:+ "-" +:+ Js.digits 2 m EmptyString +:+ "-"
                 +:+ Js.digits 2 d EmptyString).
  assert (Hlen : 10 <= String.length prefix).
  { unfold prefix. rewrite !length_app, !digits_length. cbn [String.length]. lia. }
  assert (Hsplit : forall pieces,
    Js.cat (year :: "-" :: Js.digits 2 m EmptyString :: "-"
            :: Js.digits 2 d EmptyString :: pieces)
    = prefix +:+ Js.cat pieces).
  { intros pieces. unfold prefix. rewrite !cat_cons. now rewrite ?append_assoc. }
  rewrite !Hsplit. now rewrite !(substring0_app 10 prefix) by exact Hlen.
Qed.

Lemma day_before (t1 t2 : Z) :
  (t1 / day = t2 / day)%Z ->
  ((t1 - 24 * 3600 * 1000) / day = (t2 - 24 * 3600 * 1000) / day)%Z.
Proof.
  unfold day. intros Hday.
  replace (t1 - 24 * 3600 * 1000)%Z with (t1 + (-1) * 86400000)%Z by lia.
  replace (t2 - 24 * 3600 * 1000)%Z with (t2 + (-1) * 86400000)%Z by lia.
  rewrite !Z.div_add by lia. now rewrite Hday.
Qed.

(** Two generators constructed for an environment on the same day (UTC) have
    the same snapshot date. *)
Lemma new_same_day (environ : SoftwareEnvironment) (w1 w2 : World) :
  (clock w1 (reads w1) / day = clock w2 (reads w2) / day)%Z ->
  result (RGenerator.new environ) w1 = result (RGenerator.new environ) w2.
Proof.
  intros Hday. unfold result.
  destruct (Js.truthy (datePublished environ)) eqn:Hdate.
  - now rewrite !ConstructorFacts.new_dated.
  - rewrite !ConstructorFacts.new_undated by assumption. cbn [fst].
    f_equal. apply date_of_day. now apply day_before.
Qed.

Lemma new_world (environ : SoftwareEnvironment) (w : World) :
  same_project (after (RGenerator.new environ) w) w.
Proof.
  unfold after.
  destruct (Js.truthy (datePublished environ)) eqn:Hdate.
  - rewrite ConstructorFacts.new_dated by assumption. apply DeterminismFacts.same_project_refl.
  - rewrite ConstructorFacts.new_undated by assumption. apply DeterminismFacts.same_project_now.
Qed.

Lemma same_project_sym (w1 w2 : World) : same_project w1 w2 -> same_project w2 w1.
Proof. intros (H1 & H2 & H3). now repeat split. Qed.

End ClockFacts.

(** X11. The date the constructor falls back on depends on the day of the
    clock only: two R generators constructed for an environment on the same
    day (UTC) carry the same snapshot date, and their Dockerfiles without
    comments are the same for the same project, whether or not the
    environment has a publication date. *)
Theorem same_day_same_dockerfile
    (environ : SoftwareEnvironment) (selects : bool) (w1 w2 : World) :
  (clock w1 (reads w1) / Notions.day = clock w2 (reads w2) / Notions.day)%Z ->
  same_project w1 w2 ->
  RGenerator.date (result (RGenerator.new environ) w1)
  = RGenerator.date (result (RGenerator.new environ) w2)
  /\ result (compose environ selects false) w1
     = result (compose environ selects false) w2.
Proof.
  intros Hday Hsame.
  pose proof (ClockFacts.new_same_day environ w1 w2 Hday) as Hnew.
  split; [now rewrite Hnew|].
  assert (Hrun : forall w,
    result (compose environ selects false) w
    = result (generate (with_applies (ret selects)
                          (RGenerator.methods (result (RGenerator.new environ) w)))
                       false)
             (after (RGenerator.new environ) w)).
  { intros w. unfold compose, bind, result, after.
    now destruct (RGenerator.new environ w). }
  rewrite !Hrun, Hnew.
  apply DeterminismFacts.generate_same_project.
  eapply DeterminismFacts.same_project_trans; [apply ClockFacts.new_world|].
  eapply DeterminismFacts.same_project_trans; [exact Hsame|].
  apply ClockFacts.same_project_sym, ClockFacts.new_world.
Qed.

Lemma same_day_same_dockerfile_witness :
  RGenerator.date (result (RGenerator.new Examples.undated) Examples.project)
  = RGenerator.date
      (result (RGenerator.new Examples.undated)
         (mkWorld (folder Examples.project) (globbed Examples.project)
            (fun _ => 1538781234567%Z) 3 "0.2.0"))
  /\ result (compose Examples.undated true false) Examples.project
     = result (compose Examples.undated true false)
         (mkWorld (folder Examples.project) (globbed Examples.project)
            (fun _ => 1538781234567%Z) 3 "0.2.0").
Proof.
  apply (same_day_same_dockerfile Examples.undated true Examples.project
           (mkWorld (folder Examples.project) (globbed Examples.project)
              (fun _ => 1538781234567%Z) 3 "0.2.0")).
  - reflexivity.
  - repeat split.
Defined.

Module RShape.

Lemma aptPackages_nonempty (environ : SoftwareEnvironment) :
  nonempty (Walk.aptPackages environ) = true.
Proof.
  unfold Walk.aptPackages.
  now destruct (Walk.find_all (default [] (env_softwareRequirements environ)) []).
Qed.

End RShape.

(** X10. The Dockerfile of a selected R generator, without comments, in
    full: the base image [ubuntu:16.04], the two environment variables, the
    bootstrap, the MRAN repository of the generator's date for [xenial], the
    key, the system packages of the walk, the Stencila host, the non-root
    user, the marker, the install file and the install command that goes
    with it, and, when the folder has R scripts, their staging and the run
    command. Every step up to the install command is always written. *)
Theorem r_dockerfile (this : RGenerator.Object) (w : World) :
  let script := result (Doer.exists_ "install.R") w in
  let descriptor := result (Doer.exists_ "DESCRIPTION") w in
  let rfiles := globbed w "**/*.R" in
  result (generate (with_applies (ret true) (RGenerator.methods this)) false) w
  = Js.cat
      [Text.from "ubuntu:16.04";
       Text.env [("TZ", "Etc/UTC"); ("R_LIBS_USER", "~/R")];
       Text.bootstrap;
       Text.repos [Js.cat ["deb https://mran.microsoft.com/snapshot/";
                           RGenerator.date this; "/bin/linux/ubuntu xenial/"]];
       Text.keys (Some "apt-key adv --keyserver keyserver.ubuntu.com --recv-keys 51716619E084DAB9");
       Text.packages (Walk.aptPackages (RGenerator.environ this));
       Text.stencila (result (RGenerator.stencilaInstall "ubuntu:16.04") w);
       Text.user;
       Text.marker;
       Text.copy (if script then [("install.R", "install.R")]
                  else if descriptor then [("DESCRIPTION", "DESCRIPTION")]
                  else [(".DESCRIPTION", "DESCRIPTION")]);
       Text.install
         (Some (if script
                then Js.cat ["mkdir ~/R "; Js.bs; Js.nl; " && Rscript install.R"]
                else Js.cat ["mkdir ~/R "; Js.bs; Js.nl; " && bash -c "; Js.dq;
                             "Rscript <(curl -sL https://unpkg.com/@stencila/dockter/src/install.R)";
                             Js.dq]));
       match rfiles with
       | [] => EmptyString
       | _ :: _ =>
           Text.copy (map (fun file => (file, file)) rfiles)
           +:+ Text.cmd (result (RGenerator.runCommand "ubuntu:16.04") w)
       end].
Proof.
  cbv zeta.
  set (g := with_applies (ret true) (RGenerator.methods this)).
  pose proof (ComposerFacts.generate_sections g false w eq_refl) as Hout.
  cbv zeta in Hout. rewrite Hout. clear Hout.
  change (result (baseIdentifier g) (started false w)) with "ubuntu:16.04".
  change (after (applies g) (after (baseIdentifier g) (started false w))) with w.
  unfold g. rewrite RConsult.consult_R.
  rewrite RConsult.installCommand_after_installFiles, RConsult.installFiles_result.
  unfold Sections.heading, Sections.base, Sections.environment, Sections.bootstrap,
    Sections.repository_add, Sections.key_registration, Sections.system_packages,
    Sections.ecosystem_bootstrap, Sections.privilege_drop, Sections.managed_marker,
    Sections.install_files, Sections.install_command, Sections.project_files,
    Sections.run_command.
  cbn [the_envVars the_aptRepos the_aptKeysCommand the_aptPackages
       the_stencilaInstall the_installFiles the_installCommand
       the_projectFiles the_runCommand].
  change (result (RGenerator.envVars "ubuntu:16.04") w)
    with [("TZ", "Etc/UTC"); ("R_LIBS_USER", "~/R")].
  change (result (RGenerator.aptRepos this "ubuntu:16.04") w)
    with [Js.cat ["deb https://mran.microsoft.com/snapshot/";
                  RGenerator.date this; "/bin/linux/ubuntu xenial/"]].
  change (result (RGenerator.aptKeysCommand "ubuntu:16.04") w)
    with (Some "apt-key adv --keyserver keyserver.ubuntu.com --recv-keys 51716619E084DAB9").
  change (result (RGenerator.aptPackages this "ubuntu:16.04") w)
    with (Walk.aptPackages (RGenerator.environ this)).
  rewrite RShape.aptPackages_nonempty.
  set (stencila := result (RGenerator.stencilaInstall "ubuntu:16.04") w).
  assert (Hstencila : Js.truthy stencila = true) by reflexivity.
  rewrite Hstencila. clearbody stencila.
  set (files := if result (Doer.exists_ "install.R") w
                then [("install.R", "install.R")] else _).
  assert (Hfiles : nonempty files = true).
  { unfold files. destruct (result (Doer.exists_ "install.R") w); [reflexivity|].
    now destruct (result (Doer.exists_ "DESCRIPTION") w). }
  rewrite Hfiles. clearbody files.
  set (command := Some (if result (Doer.exists_ "install.R") w then _ else _)).
  assert (Hcommand : Js.truthy command = true).
  { unfold command. now destruct (result (Doer.exists_ "install.R") w). }
  rewrite Hcommand. clearbody command.
  set (run := result (RGenerator.runCommand "ubuntu:16.04") w).
  assert (Htail :
    Sections.optional false (nonempty (map (fun file => (file, file)) (globbed w "**/*.R")))
      (Js.nl +:+ "# This section copies your project's files into the image")
      (Text.copy (map (fun file => (file, file)) (globbed w "**/*.R")))
    +:+ Sections.optional false (Js.truthy run)
          (Js.nl +:+ "# This tells Docker the default command to run when the container is started")
          (Text.cmd run)
    = match globbed w "**/*.R" with
      | [] => EmptyString
      | _ :: _ =>
          Text.copy (map (fun file => (file, file)) (globbed w "**/*.R")) +:+ Text.cmd run
      end).
  { unfold run, RGenerator.runCommand, Doer.glob, bind, ret, result. cbv beta iota.
    destruct (globbed w "**/*.R") as [|first rest]; reflexivity. }
  cbn [nonempty orb Js.truthy].
  rewrite !SectionFacts.optional_present.
  change (Text.note false ?x) with EmptyString.
  change (EmptyString +:+ ?x) with x.
  rewrite !cat_cons. change (Js.cat []) with EmptyString.
  rewrite <- Htail. now rewrite ?append_nil_r.
Qed.

Module FolderFacts.

Lemma folder_installFiles (this : RGenerator.Object) (v : string) (w : World) :
  folder (after (RGenerator.installFiles this v) w)
  = if result (Doer.exists_ "install.R") w || result (Doer.exists_ "DESCRIPTION") w
    then folder w
    else <[".DESCRIPTION" :=
             RGenerator.description this (Js.toISOString (clock w (reads w)))]>
           (folder w).
Proof.
  unfold after at 1. rewrite RConsult.installFiles_run.
  destruct (result (Doer.exists_ "install.R") w); [reflexivity|].
  destruct (result (Doer.exists_ "DESCRIPTION") w); reflexivity.
Qed.

Lemma folder_started (c : bool) (w : World) : folder (started c w) = folder w.
Proof. now destruct c. Qed.

Lemma exists_started (c : bool) (p : string) (w : World) :
  result (Doer.exists_ p) (started c w) = result (Doer.exists_ p) w.
Proof. now destruct c. Qed.

End FolderFacts.

(** X14. A composition of the R generator writes [.Dockerfile] and, when the
    folder has neither [install.R] nor [DESCRIPTION], [.DESCRIPTION]; it
    writes no other file, so the user's own [install.R], [DESCRIPTION] and R
    scripts are left as they are. With an [install.R] or a [DESCRIPTION] in
    the folder, [.Dockerfile] is the only file written, and it holds the text
    returned. *)
Theorem composition_writes_two_files_at_most
    (this : RGenerator.Object) (c : bool) (w : World) :
  let g := with_applies (ret true) (RGenerator.methods this) in
  (forall path, path <> ".Dockerfile" -> path <> ".DESCRIPTION" ->
     folder (after (generate g c) w) !! path = folder w !! path)
  /\
  (result (Doer.exists_ "install.R") w || result (Doer.exists_ "DESCRIPTION") w = true ->
   folder (after (generate g c) w)
   = <[".Dockerfile" := result (generate g c) w]> (folder w)).
Proof.
  cbv zeta. set (g := with_applies (ret true) (RGenerator.methods this)).
  pose proof (ComposerFacts.generate_full g c w eq_refl) as Hrun.
  cbv zeta in Hrun.
  pose proof (f_equal fst Hrun) as Hout. pose proof (f_equal snd Hrun) as Hworld.
  clear Hrun. cbn [fst snd] in Hout, Hworld.
  change (fst (generate g c w)) with (result (generate g c) w) in Hout.
  change (snd (generate g c w)) with (after (generate g c) w) in Hworld.
  rewrite <- Hout in Hworld. rewrite Hworld. clear Hout Hworld.
  change (after (applies g) (after (baseIdentifier g) (started c w)))
    with (started c w).
  unfold g. rewrite !DeterminismFacts.consult_world.
  unfold after at 1 3, Doer.write. cbn [snd folder].
  rewrite !FolderFacts.folder_installFiles, !FolderFacts.exists_started.
  rewrite !FolderFacts.folder_started.
  split.
  - intros path Hdocker Hdesc. rewrite lookup_insert_ne by congruence.
    destruct (result (Doer.exists_ "install.R") w || result (Doer.exists_ "DESCRIPTION") w);
      [reflexivity|].
    now rewrite lookup_insert_ne by congruence.
  - now intros ->.
Qed.

Lemma composition_writes_two_files_at_most_witness :
  folder (after (generate Examples.selected true) Examples.project_with_script)
  = <[".Dockerfile" := result (generate Examples.selected true) Examples.project_with_script]>
      (folder Examples.project_with_script).
Proof.
  exact (proj2 (composition_writes_two_files_at_most
                  (RGenerator.mkObject Examples.scenario "2018-10-05")
                  true Examples.project_with_script)
           eq_refl).
Defined.
